(** * Stock trading journal: data model, statistics, record form, role hook

    A shallow embedding of the TypeScript sources of the trading journal
    (the dashboard component, the record form, the [useUserRole] hook) and
    of the SQL migration that creates the [trading_records] table, with the
    properties of the specification stated over it.

    Numbers.  The store keeps [quantity] in an INTEGER column and [price],
    [commission], [tax] in NUMERIC columns; they are modelled as [Z] and as
    exact rationals [Q] (equality of rationals is [==]).  The sums and
    products of the dashboard are taken on these exact values: the rounding
    of JavaScript's binary floating point in arithmetic is outside the
    model.  What a JavaScript number does to a stored value on its way
    through the form is in the runtime's [toString] and [parseFloat]. *)

From Stdlib Require Import ZArith QArith Qround Lia Ascii String.
From Stdlib Require Import DecimalString DecimalZ DecimalPos.
From stdpp Require Import base option list strings gmap sorting.

Local Open Scope Q_scope.

(** ** Data model *)

Module Schema.

(** [CREATE TYPE public.transaction_type AS ENUM ('buy', 'sell')] *)
Inductive TransactionType := buy | sell.

#[global] Instance TransactionType_eq_dec : EqDecision TransactionType.
Proof. solve_decision. Defined.

(** A row of [public.trading_records], column by column.  Nullable columns
    are options.  The two [TradingRecord] interfaces of the TypeScript
    sources are views of such a row ([select('*')] returns all columns). *)
Record TradingRecord := {
  id : string;
  user_id : string;
  trade_date : string;
  stock_symbol : string;
  stock_name : option string;
  transaction_type : TransactionType;
  quantity : Z;
  price : Q;
  commission : option Q;
  tax : option Q;
  notes : option string;
  created_at : string;
  updated_at : string
}.

End Schema.

(** ** Statistics of the dashboard *)

Module Dashboard.
Import Schema.

(** [x || 0] on an optional number: [null], [undefined] and [0] are falsy. *)
Definition or0 (x : option Q) : Q :=
  match x with
  | Some c => if Qeq_bool c 0 then 0 else c
  | None => 0
  end.

(** [r.quantity * r.price] *)
Definition amount (r : TradingRecord) : Q := inject_Z (quantity r) * price r.

(** [records.filter(r => r.transaction_type === 'buy')
           .reduce((sum, r) => sum + (r.quantity * r.price), 0)] *)
Definition totalInvestment (records : list TradingRecord) : Q :=
  fold_left (fun sum r => sum + amount r)
            (filter (fun r => transaction_type r = buy) records) 0.

(** The same with ['sell']. *)
Definition totalReturn (records : list TradingRecord) : Q :=
  fold_left (fun sum r => sum + amount r)
            (filter (fun r => transaction_type r = sell) records) 0.

(** [records.reduce((sum, r) => sum + (r.commission || 0) + (r.tax || 0), 0)] *)
Definition totalFees (records : list TradingRecord) : Q :=
  fold_left (fun sum r => sum + or0 (commission r) + or0 (tax r)) records 0.

(** [totalReturn - totalInvestment - totalFees] *)
Definition totalPnL (records : list TradingRecord) : Q :=
  totalReturn records - totalInvestment records - totalFees records.

(** [records.length], shown on the third summary card. *)
Definition tradeCount (records : list TradingRecord) : nat := length records.

(** The five figures together. *)
Record Statistics := {
  st_totalInvestment : Q;
  st_totalReturn : Q;
  st_totalFees : Q;
  st_netProfitLoss : Q;
  st_tradeCount : nat
}.

Definition statistics (records : list TradingRecord) : Statistics :=
  {| st_totalInvestment := totalInvestment records;
     st_totalReturn := totalReturn records;
     st_totalFees := totalFees records;
     st_netProfitLoss := totalPnL records;
     st_tradeCount := tradeCount records |}.

(** The cell of the table row: the sign character, then [$] and the amount
    [record.quantity * record.price + (record.commission || 0) + (record.tax || 0)]
    (the locale formatting of the amount is left out). *)
Definition rowSign (record : TradingRecord) : string :=
  if decide (transaction_type record = buy) then "-" else "+".

Definition rowAmount (record : TradingRecord) : Q :=
  inject_Z (quantity record) * price record
  + or0 (commission record) + or0 (tax record).

Definition rowDisplay (record : TradingRecord) : string * Q :=
  (rowSign record, rowAmount record).

(** The number a displayed cell stands for: the amount under its sign. *)
Definition signedValue (cell : string * Q) : Q :=
  if decide (cell.1 = "-"%string) then - cell.2 else cell.2.

(** *** The statistics in the words of the specification *)

(** An absent commission or tax counts as 0. *)
Definition absent_as_0 (x : option Q) : Q :=
  match x with Some c => c | None => 0 end.

(** Sum of [f] over the records of a list that satisfy [keep]. *)
Fixpoint sum_where (keep : TradingRecord -> bool) (f : TradingRecord -> Q)
    (l : list TradingRecord) : Q :=
  match l with
  | [] => 0
  | r :: l' => if keep r then f r + sum_where keep f l' else sum_where keep f l'
  end.

Definition is_type (t : TransactionType) (r : TradingRecord) : bool :=
  bool_decide (transaction_type r = t).

Definition gross (r : TradingRecord) : Q := inject_Z (quantity r) * price r.

Definition fees (r : TradingRecord) : Q :=
  absent_as_0 (commission r) + absent_as_0 (tax r).

(** The ranges of the data model: a positive share count, a price, a
    commission and a tax that are not negative. *)
Definition in_range (r : TradingRecord) : Prop :=
  (0 < quantity r)%Z /\ 0 <= price r /\
  0 <= absent_as_0 (commission r) /\ 0 <= absent_as_0 (tax r).

End Dashboard.

(** ** JavaScript conversions used by the form *)

(** The lower-case ASCII letters, [a] to [z]. *)
Definition is_lower (c : ascii) : bool :=
  let n := nat_of_ascii c in (97 <=? n)%nat && (n <=? 122)%nat.

(** The upper-case form of a letter [a]-[z]; every other byte is kept. *)
Definition upper_ascii (c : ascii) : ascii :=
  let n := nat_of_ascii c in
  if (97 <=? n)%nat && (n <=? 122)%nat then ascii_of_nat (n - 32) else c.

(** Upper-casing of the letters [a]-[z] of a string. *)
Fixpoint asciiUpper (s : string) : string :=
  match s with
  | EmptyString => EmptyString
  | String c s' => String (upper_ascii c) (asciiUpper s')
  end.

(** A string that holds no letter [a]-[z]. *)
Fixpoint no_lower_case (s : string) : Prop :=
  match s with
  | EmptyString => True
  | String c s' => is_lower c = false /\ no_lower_case s'
  end.

(** The built-in conversions between numbers, dates and strings are not part
    of the sources; they are an interface.  [None] is a result that is not a
    finite number ([NaN], [Infinity]); [JSON.stringify] writes it as [null]. *)
Class JSRuntime := {
  (** [parseInt(s)] *)
  parseInt : string -> option Z;
  (** [parseFloat(s)] *)
  parseFloat : string -> option Q;
  (** [x.toString()] on a number *)
  toString : Q -> string;
  (** [new Date(d).toISOString().split('T')[0]] *)
  isoDate : string -> string;
  (** what [s.toUpperCase()] does to the characters other than [a]-[z]
      (it turns é into É and ß into SS), the letters [a]-[z] left in place *)
  upperOther : string -> string
}.

(** [s.toUpperCase()].  JavaScript upper-cases every letter of the string:
    the letters [a]-[z] as [asciiUpper] does, the other characters as the
    runtime's [upperOther] does.  No upper-case form holds a letter [a]-[z],
    so the built-in is the one after the other. *)
Definition toUpperCase {JS : JSRuntime} (s : string) : string :=
  asciiUpper (upperOther s).

(** JSON values of a request body. *)
Inductive json := JNull | JString (s : string) | JNumber (q : Q).

(** A number in a request body. *)
Definition number_json (x : option Q) : json :=
  match x with Some q => JNumber q | None => JNull end.

(** [s || null] on a string: the empty string is falsy. *)
Definition or_null (s : string) : json :=
  if decide (s = ""%string) then JNull else JString s.

(** [s || ''] on an optional string. *)
Definition or_empty (s : option string) : string :=
  match s with Some s => s | None => ""%string end.

Definition type_name (t : Schema.TransactionType) : string :=
  match t with Schema.buy => "buy"%string | Schema.sell => "sell"%string end.

(** ** The store: table [trading_records], its policies and its trigger *)

Module Store.
Import Schema.

(** What a statement sees of its session: [auth.uid()], [now()], the value
    [gen_random_uuid()] would return, whether the store can be reached, and
    how the server reads a text as a DATE ([date_in], which gives the date
    back in the spelling [YYYY-MM-DD] the client receives, or nothing when
    the text is no date). *)
Record Env := {
  auth_uid : option string;
  now : string;
  gen_random_uuid : string;
  online : bool;
  date_in : string -> option string
}.

(** Decoding of a JSON value into a column; [None] is a rejected value
    (NOT NULL violation or a value that is not of the column's type). *)
Definition dec_text (v : json) : option string :=
  match v with JString s => Some s | _ => None end.

Definition dec_text_null (v : json) : option (option string) :=
  match v with JString s => Some (Some s) | JNull => Some None | _ => None end.

Definition dec_type (v : json) : option TransactionType :=
  match v with
  | JString s =>
      if decide (s = "buy"%string) then Some buy
      else if decide (s = "sell"%string) then Some sell else None
  | _ => None
  end.

(** A DATE column takes the texts the server reads as a date. *)
Definition dec_date (env : Env) (v : json) : option string :=
  match v with JString s => date_in env s | _ => None end.

(** An INTEGER column takes the whole numbers of 32 bits. *)
Definition dec_integer (v : json) : option Z :=
  match v with
  | JNumber q =>
      if Qeq_bool q (inject_Z (Qfloor q))
         && (-2147483648 <=? Qfloor q)%Z && (Qfloor q <=? 2147483647)%Z
      then Some (Qfloor q) else None
  | _ => None
  end.

Definition dec_numeric (v : json) : option Q :=
  match v with JNumber q => Some q | _ => None end.

Definition dec_numeric_null (v : json) : option (option Q) :=
  match v with JNumber q => Some (Some q) | JNull => Some None | _ => None end.

(** The value of a column: the one of the request body when the body names
    the column, otherwise the fallback (the DEFAULT of the column on insert,
    the old value on update; no fallback: the column is required). *)
Definition col {A} (decode : json -> option A) (fallback : option A)
    (body : gmap string json) (name : string) : option A :=
  match body !! name with
  | Some v => decode v
  | None => fallback
  end.

Record Fallback := {
  fb_id : option string;
  fb_user_id : option string;
  fb_trade_date : option string;
  fb_stock_symbol : option string;
  fb_stock_name : option (option string);
  fb_transaction_type : option TransactionType;
  fb_quantity : option Z;
  fb_price : option Q;
  fb_commission : option (option Q);
  fb_tax : option (option Q);
  fb_notes : option (option string);
  fb_created_at : option string;
  fb_updated_at : option string
}.

(** The row a request body describes over the fallbacks. *)
Definition assemble (env : Env) (fb : Fallback) (body : gmap string json)
    : option TradingRecord :=
  c1 ← col dec_text (fb_id fb) body "id";
  c2 ← col dec_text (fb_user_id fb) body "user_id";
  c3 ← col (dec_date env) (fb_trade_date fb) body "trade_date";
  c4 ← col dec_text (fb_stock_symbol fb) body "stock_symbol";
  c5 ← col dec_text_null (fb_stock_name fb) body "stock_name";
  c6 ← col dec_type (fb_transaction_type fb) body "transaction_type";
  c7 ← col dec_integer (fb_quantity fb) body "quantity";
  c8 ← col dec_numeric (fb_price fb) body "price";
  c9 ← col dec_numeric_null (fb_commission fb) body "commission";
  c10 ← col dec_numeric_null (fb_tax fb) body "tax";
  c11 ← col dec_text_null (fb_notes fb) body "notes";
  c12 ← col dec_text (fb_created_at fb) body "created_at";
  c13 ← col dec_text (fb_updated_at fb) body "updated_at";
  Some {| id := c1; user_id := c2; trade_date := c3; stock_symbol := c4;
          stock_name := c5; transaction_type := c6; quantity := c7;
          price := c8; commission := c9; tax := c10; notes := c11;
          created_at := c12; updated_at := c13 |}.

(** The DEFAULT clauses of [CREATE TABLE public.trading_records]. *)
Definition defaults (env : Env) : Fallback :=
  {| fb_id := Some (gen_random_uuid env);
     fb_user_id := None;
     fb_trade_date := None;
     fb_stock_symbol := None;
     fb_stock_name := Some None;
     fb_transaction_type := None;
     fb_quantity := None;
     fb_price := None;
     fb_commission := Some (Some 0);
     fb_tax := Some (Some 0);
     fb_notes := Some None;
     fb_created_at := Some (now env);
     fb_updated_at := Some (now env) |}.

(** The columns of an existing row. *)
Definition old_values (r : TradingRecord) : Fallback :=
  {| fb_id := Some (id r);
     fb_user_id := Some (user_id r);
     fb_trade_date := Some (trade_date r);
     fb_stock_symbol := Some (stock_symbol r);
     fb_stock_name := Some (stock_name r);
     fb_transaction_type := Some (transaction_type r);
     fb_quantity := Some (quantity r);
     fb_price := Some (price r);
     fb_commission := Some (commission r);
     fb_tax := Some (tax r);
     fb_notes := Some (notes r);
     fb_created_at := Some (created_at r);
     fb_updated_at := Some (updated_at r) |}.

(** The three columns no form field feeds. *)
Definition identity_columns (r : TradingRecord) : string * string * string :=
  (id r, user_id r, created_at r).

(** Row-level security: [USING (auth.uid() = user_id)] and
    [WITH CHECK (auth.uid() = user_id)]. *)
Definition owned (env : Env) (r : TradingRecord) : Prop :=
  auth_uid env = Some (user_id r).

#[global] Instance owned_dec env r : Decision (owned env r).
Proof. unfold owned. apply _. Defined.

(** [update_updated_at_column()], run BEFORE UPDATE FOR EACH ROW:
    [NEW.updated_at = now(); RETURN NEW]. *)
Definition update_updated_at_column (env : Env) (new : TradingRecord)
    : TradingRecord :=
  {| id := id new; user_id := user_id new; trade_date := trade_date new;
     stock_symbol := stock_symbol new; stock_name := stock_name new;
     transaction_type := transaction_type new; quantity := quantity new;
     price := price new; commission := commission new; tax := tax new;
     notes := notes new; created_at := created_at new;
     updated_at := now env |}.

(** [.insert([body])]: the row is assembled over the DEFAULTs, must pass the
    INSERT policy and must carry a fresh primary key.  [None] is a store
    error; the table is then as before. *)
Definition insert (env : Env) (body : gmap string json)
    (table : list TradingRecord) : option (list TradingRecord) :=
  if online env then
    row ← assemble env (defaults env) body;
    if decide (owned env row) then
      if decide (id row ∈ id <$> table) then None else Some (table ++ [row])
    else None
  else None.

(** One row under [UPDATE ... SET body]: the new row is assembled over the
    old one, the trigger stamps it, and it must pass the policy again. *)
Definition update_row (env : Env) (body : gmap string json)
    (r : TradingRecord) : option TradingRecord :=
  new ← assemble env (old_values r) body;
  let new' := update_updated_at_column env new in
  if decide (owned env new') then Some new' else None.

(** [.update(body).eq('id', rid)]: every row with that id which the UPDATE
    policy lets the caller see is rewritten; the others are kept.  One
    rejected row fails the statement.  (Uniqueness of the primary key is not
    re-checked here.) *)
Definition update (env : Env) (body : gmap string json) (rid : string)
    (table : list TradingRecord) : option (list TradingRecord) :=
  if online env then
    mapM (fun r => if decide (id r = rid /\ owned env r)
                   then update_row env body r else Some r) table
  else None.

(** Order of [.order('trade_date', { ascending: false })]: the later date
    first.  Dates are compared as their texts [YYYY-MM-DD]. *)
Definition later_first (x y : TradingRecord) : Prop :=
  String.leb (trade_date y) (trade_date x) = true.

#[global] Instance later_first_dec x y : Decision (later_first x y).
Proof. unfold later_first. apply _. Defined.

(** [.select('*').order('trade_date', { ascending: false })]: the rows the
    SELECT policy lets the caller see, the later date first (rows of one
    date come in the order the sort leaves them).  [None] is a store error. *)
Definition select (env : Env) (table : list TradingRecord)
    : option (list TradingRecord) :=
  if online env then Some (merge_sort later_first (filter (owned env) table))
  else None.

(** [.delete().eq('id', rid)]: the rows with that id which the DELETE policy
    lets the caller see are removed; no such row is no error. *)
Definition delete (env : Env) (rid : string) (table : list TradingRecord)
    : option (list TradingRecord) :=
  if online env then
    Some (filter (fun r => ~ (id r = rid /\ owned env r)) table)
  else None.

End Store.

(** ** The record form *)

Module Auth.
(** The signed-in user as the form and the hook use it. *)
Record User := { id : string; email : string }.
End Auth.

Module Form.

(** The state of the form: every field is the text of its input. *)
Record FormData := {
  trade_date : string;
  stock_symbol : string;
  stock_name : string;
  transaction_type : string;
  quantity : string;
  price : string;
  commission : string;
  tax : string;
  notes : string
}.

(** [useState({ trade_date: '', ..., transaction_type: 'buy', ... })] *)
Definition initialFormData : FormData :=
  {| trade_date := ""; stock_symbol := ""; stock_name := "";
     transaction_type := "buy"; quantity := ""; price := "";
     commission := ""; tax := ""; notes := "" |}.

(** [setFormData(prev => ({ ...prev, [field]: value }))]; a field name that
    is none of the nine adds a property nobody reads. *)
Definition handleInputChange (field value : string) (prev : FormData)
    : FormData :=
  let pick (name : string) (old : string) : string :=
    if decide (field = name) then value else old in
  {| trade_date := pick "trade_date" (trade_date prev);
     stock_symbol := pick "stock_symbol" (stock_symbol prev);
     stock_name := pick "stock_name" (stock_name prev);
     transaction_type := pick "transaction_type" (transaction_type prev);
     quantity := pick "quantity" (quantity prev);
     price := pick "price" (price prev);
     commission := pick "commission" (commission prev);
     tax := pick "tax" (tax prev);
     notes := pick "notes" (notes prev) |}.

(** The store call [handleSubmit] issues. *)
Inductive Request :=
  | Update (body : gmap string json) (rid : string)
  | Insert (body : gmap string json).

(** The toast shown at the end: its title depends on [record]. *)
Inductive Toast := Saved (editing : bool) | SaveFailed (editing : bool).

Record Outcome := {
  table_after : list Schema.TradingRecord;
  requests : list Request;
  toast : Toast;
  onSuccess : bool
}.

Definition perform (env : Store.Env) (req : Request)
    (table : list Schema.TradingRecord) : option (list Schema.TradingRecord) :=
  match req with
  | Update body rid => Store.update env body rid table
  | Insert body => Store.insert env body table
  end.

(** A record in the form the form itself writes: a symbol in which no letter
    [a]-[z] is left to upper-case, a name and notes that are absent rather
    than empty, a commission and a tax that are present. *)
Definition normalised (r : Schema.TradingRecord) : Prop :=
  asciiUpper (Schema.stock_symbol r) = Schema.stock_symbol r /\
  Schema.stock_name r <> Some ""%string /\
  Schema.notes r <> Some ""%string /\
  is_Some (Schema.commission r) /\ is_Some (Schema.tax r).

(** Every field but [price] and [updated_at] is the same in [r'] as in [r]. *)
Definition others_unchanged (r r' : Schema.TradingRecord) : Prop :=
  Schema.id r' = Schema.id r /\
  Schema.user_id r' = Schema.user_id r /\
  Schema.trade_date r' = Schema.trade_date r /\
  Schema.stock_symbol r' = Schema.stock_symbol r /\
  Schema.stock_name r' = Schema.stock_name r /\
  Schema.transaction_type r' = Schema.transaction_type r /\
  Schema.quantity r' = Schema.quantity r /\
  Schema.commission r' = Schema.commission r /\
  Schema.tax r' = Schema.tax r /\
  Schema.notes r' = Schema.notes r /\
  Schema.created_at r' = Schema.created_at r.

Section WithRuntime.
Context {JS : JSRuntime}.

(** The effect on [record]: the form takes the values of the record. *)
Definition loadRecord (record : Schema.TradingRecord) : FormData :=
  {| trade_date := isoDate (Schema.trade_date record);
     stock_symbol := Schema.stock_symbol record;
     stock_name := or_empty (Schema.stock_name record);
     transaction_type := type_name (Schema.transaction_type record);
     quantity := toString (inject_Z (Schema.quantity record));
     price := toString (Schema.price record);
     commission := or_empty (toString <$> Schema.commission record);
     tax := or_empty (toString <$> Schema.tax record);
     notes := or_empty (Schema.notes record) |}.

(** The effect without a [record]: the form keeps its fields and takes
    today's date, [new Date().toISOString().split('T')[0]]. *)
Definition loadToday (today : string) (prev : FormData) : FormData :=
  {| trade_date := today;
     stock_symbol := stock_symbol prev;
     stock_name := stock_name prev;
     transaction_type := transaction_type prev;
     quantity := quantity prev;
     price := price prev;
     commission := commission prev;
     tax := tax prev;
     notes := notes prev |}.

(** [formData.commission ? parseFloat(formData.commission) : 0] *)
Definition fee_value (text : string) : option Q :=
  if decide (text = ""%string) then Some 0 else parseFloat text.

(** The stored values of the record read back from the texts the form
    shows for them: the date and the share count are read as they were
    whenever they are read at all, the commission and the tax are read as
    they were. *)
Definition reads_back (env : Store.Env) (r : Schema.TradingRecord) : Prop :=
  (forall d, Store.date_in env (isoDate (Schema.trade_date r)) = Some d ->
     d = Schema.trade_date r) /\
  (forall z, parseInt (toString (inject_Z (Schema.quantity r))) = Some z ->
     z = Schema.quantity r) /\
  (forall c, Schema.commission r = Some c \/ Schema.tax r = Some c ->
     fee_value (toString c) = Some c).

(** The object [recordData] of [handleSubmit], key by key. *)
Definition recordData (formData : FormData) : gmap string json :=
  list_to_map
    [ ("trade_date"%string, JString (trade_date formData));
      ("stock_symbol"%string, JString (toUpperCase (stock_symbol formData)));
      ("stock_name"%string, or_null (stock_name formData));
      ("transaction_type"%string, JString (transaction_type formData));
      ("quantity"%string,
         number_json (inject_Z <$> parseInt (quantity formData)));
      ("price"%string, number_json (parseFloat (price formData)));
      ("commission"%string, number_json (fee_value (commission formData)));
      ("tax"%string, number_json (fee_value (tax formData)));
      ("notes"%string, or_null (notes formData)) ].

(** The call of the [try] block, or [None] when
    [throw new Error('User not authenticated')] comes first. *)
Definition request (formData : FormData)
    (record : option Schema.TradingRecord) (user : option Auth.User)
    : option Request :=
  match record with
  | Some rec => Some (Update (recordData formData) (Schema.id rec))
  | None =>
      match user with
      | Some u =>
          if decide (Auth.id u = ""%string) then None
          else Some (Insert (<["user_id"%string := JString (Auth.id u)]>
                               (recordData formData)))
      | None => None
      end
  end.

(** [handleSubmit]: build the request, send it, toast; an exception or a
    store error leaves the table as it was. *)
Definition handleSubmit (env : Store.Env) (formData : FormData)
    (record : option Schema.TradingRecord) (user : option Auth.User)
    (table : list Schema.TradingRecord) : Outcome :=
  let editing := bool_decide (is_Some record) in
  match request formData record user with
  | None =>
      {| table_after := table; requests := [];
         toast := SaveFailed editing; onSuccess := false |}
  | Some req =>
      match perform env req table with
      | Some table' =>
          {| table_after := table'; requests := [req];
             toast := Saved editing; onSuccess := true |}
      | None =>
          {| table_after := table; requests := [req];
             toast := SaveFailed editing; onSuccess := false |}
      end
  end.

End WithRuntime.
End Form.

(** ** The role hook [useUserRole] *)

Module RoleHook.

(** [role] column of [user_roles]; [UserRole] adds [null]. *)
Inductive Role := admin | user.
Definition UserRole := option Role.

#[global] Instance Role_eq_dec : EqDecision Role.
Proof. solve_decision. Defined.

(** How the awaited query settles: it is fulfilled with [{ data, error }]
    ([data] is the row of [maybeSingle()], if any), or it is rejected and
    the [await] throws. *)
Inductive Settled :=
  | Fulfilled (data : option Role) (error : bool)
  | Rejected.

(** One run of the effect: its [user], its variable [mounted], and whether
    its query is still in flight. *)
Record Run := {
  run_user : option Auth.User;
  mounted : bool;
  pending : bool
}.

(** The two state cells of the hook and the runs of its effect so far. *)
Record Hook := {
  role : UserRole;
  loading : bool;
  runs : list Run
}.

(** [useState<UserRole>(null)], [useState(true)] *)
Definition initial : Hook := {| role := None; loading := true; runs := [] |}.

(** The argument of [setRole] after the [await]:
    [error ? 'user' : (data?.role || 'user')], and ['user'] in [catch]. *)
Definition fetchedRole (s : Settled) : Role :=
  match s with
  | Fulfilled data error =>
      if error then user
      else match data with Some r => r | None => user end
  | Rejected => user
  end.

(** The cleanup [() => { mounted = false }] of the latest run. *)
Definition cleanup (rs : list Run) : list Run :=
  alter (fun r => {| run_user := run_user r; mounted := false;
                     pending := pending r |})
        (pred (length rs)) rs.

(** What happens to the hook: the dependency [user] takes a new value (the
    first event is the mount), or the query of run [k] settles. *)
Inductive Event :=
  | UserChanged (u : option Auth.User)
  | QuerySettled (k : nat) (s : Settled).

Definition step (h : Hook) (e : Event) : Hook :=
  match e with
  | UserChanged u =>
      let rs := cleanup (runs h) in
      match u with
      | None =>
          (* setRole(null); setLoading(false); return *)
          {| role := None; loading := false;
             runs := rs ++ [{| run_user := None; mounted := true;
                               pending := false |}] |}
      | Some _ =>
          (* the query is sent; the rest runs when it settles *)
          {| role := role h; loading := loading h;
             runs := rs ++ [{| run_user := u; mounted := true;
                               pending := true |}] |}
      end
  | QuerySettled k s =>
      match runs h !! k with
      | Some r =>
          if pending r then
            (* setRole(...) in try or catch; then finally *)
            {| role := Some (fetchedRole s);
               loading := if mounted r then false else loading h;
               runs := <[k := {| run_user := run_user r;
                                 mounted := mounted r;
                                 pending := false |}]> (runs h) |}
          else h
      | None => h
      end
  end.

Definition run (events : list Event) : Hook := fold_left step events initial.

(** [role === 'admin'], [role === 'user'] *)
Definition isAdmin (h : Hook) : bool :=
  bool_decide ((role h : option Role) = Some admin).
Definition isUser (h : Hook) : bool :=
  bool_decide ((role h : option Role) = Some user).

(** The role the table [user_roles] gives a user: its row, else ['user']. *)
Definition actual_role (user_roles : gmap string Role) (u : Auth.User) : Role :=
  match user_roles !! Auth.id u with Some r => r | None => user end.

(** The answer of a working store to the query of a user. *)
Definition answer (user_roles : gmap string Role) (u : Auth.User) : Settled :=
  Fulfilled (user_roles !! Auth.id u) false.

(** The user of the latest run. *)
Definition current_user (h : Hook) : option Auth.User :=
  match last (runs h) with Some r => run_user r | None => None end.

End RoleHook.

(** ** A runtime for examples

    Conversions that agree with JavaScript on integer literals, on dates
    already written [YYYY-MM-DD] and on strings of ASCII characters; the
    examples use no other input. *)

Module IntegerRuntime.

Definition parse (s : string) : option Z :=
  Z.of_int <$> DecimalString.NilZero.int_of_string s.

Definition print (q : Q) : string :=
  DecimalString.NilZero.string_of_int (Z.to_int (Qfloor q)).

Definition runtime : JSRuntime :=
  {| parseInt := parse;
     parseFloat := fun s => inject_Z <$> parse s;
     toString := print;
     isoDate := fun d => d;
     upperOther := fun s => s |}.

End IntegerRuntime.

(** The same runtime with one number that is no integer: the commission
    0.1234567890123456789, which a JavaScript number holds as
    0.12345678901234568 and prints so. *)

Module RoundingRuntime.

Definition long_decimal : Q := 1234567890123456789 # 10000000000000000000.
Definition as_printed : Q := 12345678901234568 # 100000000000000000.

Definition runtime : JSRuntime :=
  {| parseInt := IntegerRuntime.parse;
     parseFloat := fun s =>
       if decide (s = "0.12345678901234568"%string) then Some as_printed
       else inject_Z <$> IntegerRuntime.parse s;
     toString := fun q =>
       if Qeq_bool q long_decimal then "0.12345678901234568"%string
       else IntegerRuntime.print q;
     isoDate := fun d => d;
     upperOther := fun s => s |}.

End RoundingRuntime.

(** ** A reader of dates for examples: the spelling [YYYY-MM-DD] *)

Module IsoDate.

Definition digit (c : ascii) : option nat :=
  let n := nat_of_ascii c in
  if (48 <=? n)%nat && (n <=? 57)%nat then Some (n - 48)%nat else None.

Definition number (cs : list ascii) : option nat :=
  foldl (fun acc c => a ← acc; d ← digit c; Some (10 * a + d)%nat)
        (Some 0%nat) cs.

Definition leap (y : nat) : bool :=
  ((y mod 4 =? 0) && negb (y mod 100 =? 0) || (y mod 400 =? 0))%nat.

Definition days (y m : nat) : nat :=
  match m with
  | 2 => if leap y then 29 else 28
  | 4 | 6 | 9 | 11 => 30
  | _ => 31
  end%nat.

(** A date of the calendar written [YYYY-MM-DD] is read as itself; any other
    text is refused. *)
Definition read (s : string) : option string :=
  match String.list_ascii_of_string s with
  | [y1; y2; y3; y4; s1; m1; m2; s2; d1; d2] =>
      y ← number [y1; y2; y3; y4];
      m ← number [m1; m2];
      d ← number [d1; d2];
      if Ascii.eqb s1 "-" && Ascii.eqb s2 "-"
         && (1 <=? y)%nat && (1 <=? m)%nat && (m <=? 12)%nat
         && (1 <=? d)%nat && (d <=? days y m)%nat
      then Some s else None
  | _ => None
  end.

End IsoDate.

(** ** The state of the dashboard and its handlers *)

Module Journal.
Import Schema.

(** The toasts of the dashboard. *)
Inductive Notice := LoadFailed | Deleted | DeleteFailed.

(** The state cells of [TradingDashboard] and the toasts shown so far. *)
Record State := {
  records : list TradingRecord;
  loading : bool;
  showForm : bool;
  editingRecord : option TradingRecord;
  toasts : list Notice
}.

(** [useState([])], [useState(true)], [useState(false)], [useState(null)] *)
Definition initial : State :=
  {| records := []; loading := true; showForm := false;
     editingRecord := None; toasts := [] |}.

(** [fetchRecords]: the rows of the store replace the list; on an error the
    list is kept and a toast is shown; [finally] clears [loading]. *)
Definition fetchRecords (env : Store.Env) (table : list TradingRecord)
    (s : State) : State :=
  match Store.select env table with
  | Some data =>
      {| records := data; loading := false; showForm := showForm s;
         editingRecord := editingRecord s; toasts := toasts s |}
  | None =>
      {| records := records s; loading := false; showForm := showForm s;
         editingRecord := editingRecord s;
         toasts := toasts s ++ [LoadFailed] |}
  end.

(** [handleDeleteRecord]: the store deletes, then the list becomes
    [records.filter(record => record.id !== id)], where [records] is the
    list of the rendering that made the handler ([captured]), not the list
    of the state when the answer comes; on an error neither happens.  The
    result is the table and the state afterwards. *)
Definition handleDeleteRecord (env : Store.Env) (rid : string)
    (table : list TradingRecord) (captured : list TradingRecord) (s : State)
    : list TradingRecord * State :=
  match Store.delete env rid table with
  | Some table' =>
      (table',
       {| records := filter (fun record => id record <> rid) captured;
          loading := loading s; showForm := showForm s;
          editingRecord := editingRecord s;
          toasts := toasts s ++ [Deleted] |})
  | None =>
      (table,
       {| records := records s; loading := loading s;
          showForm := showForm s; editingRecord := editingRecord s;
          toasts := toasts s ++ [DeleteFailed] |})
  end.

(** The button of a new trade and the edit button of a row. *)
Definition openForm (record : option TradingRecord) (s : State) : State :=
  {| records := records s; loading := loading s; showForm := true;
     editingRecord := record; toasts := toasts s |}.

(** [onCancel]: [setShowForm(false); setEditingRecord(null)] *)
Definition closeForm (s : State) : State :=
  {| records := records s; loading := loading s; showForm := false;
     editingRecord := None; toasts := toasts s |}.

(** [handleFormSuccess]: the form closes and the list is fetched again. *)
Definition handleFormSuccess (env : Store.Env) (table : list TradingRecord)
    (s : State) : State :=
  fetchRecords env table (closeForm s).

(** The form submitted from the dashboard: [record] is [editingRecord], and
    [onSuccess] is [handleFormSuccess].  The fetch that follows the write is
    a request of its own: it meets the store as [env'] and may fail alone. *)
Definition submitForm {JS : JSRuntime} (env env' : Store.Env)
    (formData : Form.FormData) (user : option Auth.User)
    (table : list TradingRecord) (s : State)
    : list TradingRecord * State :=
  let out := Form.handleSubmit env formData (editingRecord s) user table in
  (Form.table_after out,
   if Form.onSuccess out
   then handleFormSuccess env' (Form.table_after out) s
   else s).

(** What a list must be to be an answer of the store to [fetchRecords]: the
    rows the caller may see, each once, the later date first. *)
Definition in_sync (env : Store.Env) (table l : list TradingRecord) : Prop :=
  l ≡ₚ filter (Store.owned env) table /\ Sorted Store.later_first l.

End Journal.

(** ** The admin dashboard *)

Module Admin.
Import RoleHook.

(** A row of the users query: the selected columns of [profiles] with the
    embedded [user_roles (role)]. *)
Record ProfileRow := {
  p_user_id : string;
  p_email : option string;
  p_display_name : option string;
  p_created_at : string;
  p_user_roles : option (list Role)
}.

(** [interface User] *)
Record User := {
  id : string;
  email : string;
  display_name : string;
  created_at : string;
  role : Role
}.

(** [interface SystemStats] *)
Record SystemStats := {
  totalUsers : nat;
  totalRecords : nat;
  adminUsers : nat;
  activeUsers : nat
}.

Inductive Notice := LoadFailed | RoleUpdated | RoleUpdateFailed.

Record State := {
  users : list User;
  stats : SystemStats;
  loading : bool;
  toasts : list Notice
}.

Definition initial : State :=
  {| users := [];
     stats := {| totalUsers := 0; totalRecords := 0; adminUsers := 0;
                 activeUsers := 0 |};
     loading := true; toasts := [] |}.

(** How an awaited query settles: fulfilled with its payload and whether
    [error] is set, or rejected. *)
Inductive Response (A : Type) :=
  | Fulfilled (data : option A) (error : bool)
  | Rejected.
Arguments Fulfilled {A} data error.
Arguments Rejected {A}.

(** [(user.user_roles as any)?.[0]?.role || 'user'] *)
Definition first_role (rs : option (list Role)) : Role :=
  match rs with
  | Some (r :: _) => r
  | _ => user
  end.

(** One element of [formattedUsers]. *)
Definition format (p : ProfileRow) : User :=
  {| id := p_user_id p;
     email := or_empty (p_email p);
     display_name := or_empty (p_display_name p);
     created_at := p_created_at p;
     role := first_role (p_user_roles p) |}.

(** [list.filter(u => u.role === 'admin').length] *)
Definition admin_count (l : list User) : nat :=
  length (filter (fun u => role u = admin) l).

(** The [catch] and [finally] of [fetchSystemData]. *)
Definition load_failed (us : list User) (s : State) : State :=
  {| users := us; stats := stats s; loading := false;
     toasts := toasts s ++ [LoadFailed] |}.

(** [fetchSystemData] on the answers of its two queries.  The error of the
    users query is thrown; the count query is only read for [count]. *)
Definition fetchSystemData (usersData : Response (list ProfileRow))
    (recordsCount : Response nat) (s : State) : State :=
  match usersData with
  | Rejected => load_failed (users s) s
  | Fulfilled data error =>
      if error then load_failed (users s) s
      else
        let formattedUsers :=
          match data with Some l => format <$> l | None => [] end in
        match recordsCount with
        | Rejected => load_failed formattedUsers s
        | Fulfilled count _ =>
            let totalUsers := length formattedUsers in
            {| users := formattedUsers;
               stats := {| totalUsers := totalUsers;
                           totalRecords :=
                             match count with Some n => n | None => 0%nat end;
                           adminUsers := admin_count formattedUsers;
                           activeUsers := totalUsers |};
               loading := false; toasts := toasts s |}
        end
  end.

(** [users.map(user => user.id === userId ? { ...user, role: newRole } : user)] *)
Definition with_role (userId : string) (newRole : Role) (l : list User)
    : list User :=
  (fun u => if decide (id u = userId)
            then {| id := id u; email := email u;
                    display_name := display_name u;
                    created_at := created_at u; role := newRole |}
            else u) <$> l.

(** [updateUserRole] on the answer of the upsert.  [users] in its body is
    the list of the rendering that made the handler ([captured]);
    [setStats(prev => ...)] works on the figures of the state. *)
Definition updateUserRole (upsert : Response unit) (userId : string)
    (newRole : Role) (captured : list User) (s : State) : State :=
  let failed :=
    {| users := users s; stats := stats s; loading := loading s;
       toasts := toasts s ++ [RoleUpdateFailed] |} in
  match upsert with
  | Rejected => failed
  | Fulfilled _ error =>
      if error then failed
      else
        let updatedUsers := with_role userId newRole captured in
        {| users := updatedUsers;
           stats := {| totalUsers := totalUsers (stats s);
                       totalRecords := totalRecords (stats s);
                       adminUsers := admin_count updatedUsers;
                       activeUsers := activeUsers (stats s) |};
           loading := loading s;
           toasts := toasts s ++ [RoleUpdated] |}
  end.

(** [onValueChange]: the role is only sent when it differs. *)
Definition onValueChange (upsert : Response unit) (u : User) (value : Role)
    (captured : list User) (s : State) : State :=
  if decide (value = role u) then s
  else updateUserRole upsert (id u) value captured s.

(** The figures agree with the list. *)
Definition consistent (s : State) : Prop :=
  totalUsers (stats s) = length (users s) /\
  adminUsers (stats s) = admin_count (users s) /\
  activeUsers (stats s) = totalUsers (stats s).

End Admin.

(** ** Example data *)

Module Examples.
Import Schema.

Definition alice : Auth.User := {| Auth.id := "A"; Auth.email := "a@example.org" |}.
Definition bob : Auth.User := {| Auth.id := "B"; Auth.email := "b@example.org" |}.

(** Alice is the only user with a row in [user_roles]. *)
Definition user_roles : gmap string RoleHook.Role :=
  {[ "A"%string := RoleHook.admin ]}.

(** A session of Alice. *)
Definition session : Store.Env :=
  {| Store.auth_uid := Some "A"%string;
     Store.now := "2025-08-28T09:00:00Z";
     Store.gen_random_uuid := "r2";
     Store.online := true;
     Store.date_in := IsoDate.read |}.

(** A purchase of ten shares at 100 with a commission of 5. *)
Definition ten_at_100 : TradingRecord :=
  {| id := "r1"; user_id := "A"; trade_date := "2025-08-27";
     stock_symbol := "2330"; stock_name := None; transaction_type := buy;
     quantity := 10; price := 100; commission := Some 5; tax := Some 0;
     notes := None; created_at := "2025-08-27T09:00:00Z";
     updated_at := "2025-08-27T09:00:00Z" |}.

(** The same purchase stored without a commission. *)
Definition no_commission : TradingRecord :=
  {| id := "r1"; user_id := "A"; trade_date := "2025-08-27";
     stock_symbol := "2330"; stock_name := None; transaction_type := buy;
     quantity := 10; price := 100; commission := None; tax := Some 0;
     notes := None; created_at := "2025-08-27T09:00:00Z";
     updated_at := "2025-08-27T09:00:00Z" |}.

(** A sale of the ten shares at 120, with a commission and a tax. *)
Definition ten_sold_at_120 : TradingRecord :=
  {| id := "r4"; user_id := "A"; trade_date := "2025-08-28";
     stock_symbol := "2330"; stock_name := None; transaction_type := sell;
     quantity := 10; price := 120; commission := Some 5; tax := Some 3;
     notes := None; created_at := "2025-08-28T09:00:00Z";
     updated_at := "2025-08-28T09:00:00Z" |}.

(** The purchase as another client may have stored it: with the symbol in
    lower case, with an empty name, with empty notes, and with a commission
    of more digits than a JavaScript number holds. *)
Definition lower_case_symbol : TradingRecord :=
  {| id := "r1"; user_id := "A"; trade_date := "2025-08-27";
     stock_symbol := "tsm"; stock_name := None; transaction_type := buy;
     quantity := 10; price := 100; commission := Some 5; tax := Some 0;
     notes := None; created_at := "2025-08-27T09:00:00Z";
     updated_at := "2025-08-27T09:00:00Z" |}.

Definition empty_name : TradingRecord :=
  {| id := "r1"; user_id := "A"; trade_date := "2025-08-27";
     stock_symbol := "2330"; stock_name := Some ""%string;
     transaction_type := buy;
     quantity := 10; price := 100; commission := Some 5; tax := Some 0;
     notes := None; created_at := "2025-08-27T09:00:00Z";
     updated_at := "2025-08-27T09:00:00Z" |}.

Definition empty_notes : TradingRecord :=
  {| id := "r1"; user_id := "A"; trade_date := "2025-08-27";
     stock_symbol := "2330"; stock_name := None; transaction_type := buy;
     quantity := 10; price := 100; commission := Some 5; tax := Some 0;
     notes := Some ""%string; created_at := "2025-08-27T09:00:00Z";
     updated_at := "2025-08-27T09:00:00Z" |}.

Definition long_commission : TradingRecord :=
  {| id := "r1"; user_id := "A"; trade_date := "2025-08-27";
     stock_symbol := "2330"; stock_name := None; transaction_type := buy;
     quantity := 10; price := 100;
     commission := Some RoundingRuntime.long_decimal; tax := Some 0;
     notes := None; created_at := "2025-08-27T09:00:00Z";
     updated_at := "2025-08-27T09:00:00Z" |}.

(** The table after the price of its one record [r] was set to 120 through
    the form, in Alice's session. *)
Definition repriced_at_120 (JS : JSRuntime) (r : TradingRecord)
    : list TradingRecord :=
  Form.table_after
    (Form.handleSubmit session
       (Form.handleInputChange "price" "120" (Form.loadRecord r))
       (Some r) (Some alice) [r]).

(** A form filled in for a new purchase: symbol in lower case, no fees. *)
Definition new_purchase : Form.FormData :=
  {| Form.trade_date := "2025-08-28"; Form.stock_symbol := "tsm";
     Form.stock_name := ""; Form.transaction_type := "buy";
     Form.quantity := "10"; Form.price := "100";
     Form.commission := ""; Form.tax := ""; Form.notes := "" |}.

(** Alice, then nobody, then Bob; Bob's query settles before Alice's. *)
Definition switch_via_sign_out : list RoleHook.Event :=
  [ RoleHook.UserChanged (Some alice);
    RoleHook.UserChanged None;
    RoleHook.UserChanged (Some bob);
    RoleHook.QuerySettled 2 (RoleHook.answer user_roles bob);
    RoleHook.QuerySettled 0 (RoleHook.answer user_roles alice) ].

(** Alice, then Bob at once; again Bob's query settles first. *)
Definition switch_direct : list RoleHook.Event :=
  [ RoleHook.UserChanged (Some alice);
    RoleHook.UserChanged (Some bob);
    RoleHook.QuerySettled 1 (RoleHook.answer user_roles bob);
    RoleHook.QuerySettled 0 (RoleHook.answer user_roles alice) ].

(** A session of Bob. *)
Definition bob_session : Store.Env :=
  {| Store.auth_uid := Some "B"%string;
     Store.now := "2025-08-28T10:00:00Z";
     Store.gen_random_uuid := "r5";
     Store.online := true;
     Store.date_in := IsoDate.read |}.

(** The form of [new_purchase] with a quantity that is no number. *)
Definition bad_quantity : Form.FormData :=
  Form.handleInputChange "quantity" "ten" new_purchase.

(** The dashboard after Alice's one purchase was fetched. *)
Definition one_purchase_listed : Journal.State :=
  Journal.fetchRecords session [ten_at_100] Journal.initial.

(** The admin dashboard listing Alice as admin and Bob as user. *)
Definition two_users : Admin.State :=
  Admin.fetchSystemData
    (Admin.Fulfilled
       (Some [ {| Admin.p_user_id := "A"; Admin.p_email := Some "a@example.org"%string;
                  Admin.p_display_name := Some "Alice"%string;
                  Admin.p_created_at := "2025-08-01T00:00:00Z";
                  Admin.p_user_roles := Some [RoleHook.admin] |};
               {| Admin.p_user_id := "B"; Admin.p_email := Some "b@example.org"%string;
                  Admin.p_display_name := None;
                  Admin.p_created_at := "2025-08-02T00:00:00Z";
                  Admin.p_user_roles := Some [] |} ])
       false)
    (Admin.Fulfilled (Some 1%nat) false)
    Admin.initial.

(** Bob as the admin dashboard lists him. *)
Definition listed_bob : Admin.User :=
  {| Admin.id := "B"; Admin.email := "b@example.org";
     Admin.display_name := ""; Admin.created_at := "2025-08-02T00:00:00Z";
     Admin.role := RoleHook.user |}.

End Examples.

(** * Properties *)

(** ** The statistics *)

Section DashboardFacts.
Import Schema Dashboard Examples.

Lemma or0_absent_as_0 (x : option Q) : or0 x == absent_as_0 x.
Proof.
  destruct x as [c|]; simpl; [|reflexivity].
  destruct (Qeq_bool c 0) eqn:E; [|reflexivity].
  apply Qeq_bool_eq in E. symmetry. exact E.
Qed.

(** A [reduce] that adds [amount] over the records kept by [filter] is the
    start value plus the sum over the records of that type. *)
Lemma reduce_filter_sum (t : TransactionType) (l : list TradingRecord) (a : Q) :
  fold_left (fun sum r => sum + amount r)
            (filter (fun r => transaction_type r = t) l) a
  == a + sum_where (is_type t) gross l.
Proof.
  revert a. induction l as [|r l IH]; intros a; simpl.
  - ring.
  - rewrite filter_cons. unfold is_type at 1.
    destruct (decide (transaction_type r = t)) as [E|E].
    + rewrite bool_decide_eq_true_2 by exact E. simpl.
      rewrite IH. unfold amount, gross. ring.
    + rewrite bool_decide_eq_false_2 by exact E. apply IH.
Qed.

Lemma reduce_fees_sum (l : list TradingRecord) (a : Q) :
  fold_left (fun sum r => sum + or0 (commission r) + or0 (tax r)) l a
  == a + sum_where (fun _ => true) fees l.
Proof.
  revert a. induction l as [|r l IH]; intros a; simpl.
  - ring.
  - rewrite IH. unfold fees. rewrite !or0_absent_as_0. ring.
Qed.

Lemma totalInvestment_sum (records : list TradingRecord) :
  totalInvestment records == sum_where (is_type buy) gross records.
Proof. unfold totalInvestment. rewrite reduce_filter_sum. ring. Qed.

Lemma totalReturn_sum (records : list TradingRecord) :
  totalReturn records == sum_where (is_type sell) gross records.
Proof. unfold totalReturn. rewrite reduce_filter_sum. ring. Qed.

Lemma totalFees_sum (records : list TradingRecord) :
  totalFees records == sum_where (fun _ => true) fees records.
Proof. unfold totalFees. rewrite reduce_fees_sum. ring. Qed.

Lemma sum_where_nonneg (keep : TradingRecord -> bool) (f : TradingRecord -> Q)
    (l : list TradingRecord) :
  Forall (fun r => 0 <= f r) l -> 0 <= sum_where keep f l.
Proof.
  induction 1 as [|r l Hr _ IH]; simpl.
  - apply Qle_refl.
  - destruct (keep r); [|exact IH].
    replace 0 with (0 + 0) by reflexivity. apply Qplus_le_compat; assumption.
Qed.

Lemma in_range_gross (r : TradingRecord) : in_range r -> 0 <= gross r.
Proof.
  intros (Hq & Hp & _). unfold gross. apply Qmult_le_0_compat; [|exact Hp].
  unfold Qle, inject_Z. simpl. lia.
Qed.

Lemma in_range_fees (r : TradingRecord) : in_range r -> 0 <= fees r.
Proof.
  intros (_ & _ & Hc & Ht). unfold fees.
  replace 0 with (0 + 0) by reflexivity. apply Qplus_le_compat; assumption.
Qed.

(** C1. For every list of records the aggregator's totalInvestment is the
    sum of quantity x price over the buy records, totalReturn the same sum
    over the sell records, totalFees the sum of commission + tax over all
    records (an absent one counting as 0), netProfitLoss is
    totalReturn - totalInvestment - totalFees, and tradeCount is the length
    of the list. *)
Theorem statistics_as_specified (records : list TradingRecord) :
  let s := statistics records in
  st_totalInvestment s == sum_where (is_type buy) gross records /\
  st_totalReturn s == sum_where (is_type sell) gross records /\
  st_totalFees s == sum_where (fun _ => true) fees records /\
  st_netProfitLoss s
    == st_totalReturn s - st_totalInvestment s - st_totalFees s /\
  st_netProfitLoss s
    == sum_where (is_type sell) gross records
       - sum_where (is_type buy) gross records
       - sum_where (fun _ => true) fees records /\
  st_tradeCount s = length records.
Proof.
  cbv zeta. unfold statistics. cbn [st_totalInvestment st_totalReturn
    st_totalFees st_netProfitLoss st_tradeCount].
  split; [apply totalInvestment_sum|].
  split; [apply totalReturn_sum|].
  split; [apply totalFees_sum|].
  split; [reflexivity|].
  split; [|reflexivity].
  unfold totalPnL.
  rewrite totalInvestment_sum, totalReturn_sum, totalFees_sum. reflexivity.
Qed.

(** C8. On the empty list the aggregator returns zero for totalInvestment,
    totalReturn, totalFees and netProfitLoss, and tradeCount 0; being a
    total function it raises no error. *)
Theorem statistics_of_no_records :
  statistics [] =
  {| st_totalInvestment := 0; st_totalReturn := 0; st_totalFees := 0;
     st_netProfitLoss := 0; st_tradeCount := 0 |}.
Proof. reflexivity. Qed.

Lemma ten_at_100_in_range : in_range ten_at_100.
Proof. unfold in_range. simpl. repeat split; try lia; discriminate. Qed.

(** C4. For any sequence of trading records, that is of records within the
    ranges of the data model (a positive quantity, a price, a commission and
    a tax that are not negative), totalInvestment, totalReturn and totalFees
    are not negative; and netProfitLoss can be negative on such a sequence. *)
Theorem statistics_signs (records : list TradingRecord) :
  Forall in_range records ->
  (0 <= totalInvestment records /\ 0 <= totalReturn records /\
   0 <= totalFees records) /\
  exists records', Forall in_range records' /\ totalPnL records' < 0.
Proof.
  intros H. split.
  - rewrite totalInvestment_sum, totalReturn_sum, totalFees_sum.
    repeat split; apply sum_where_nonneg;
      (eapply Forall_impl; [exact H|]); intros r Hr;
      auto using in_range_gross, in_range_fees.
  - exists [ten_at_100]. split.
    + constructor; [apply ten_at_100_in_range | constructor].
    + reflexivity.
Qed.

Lemma statistics_signs_witness :
  Forall in_range [ten_at_100] /\
  (0 <= totalInvestment [ten_at_100] /\ 0 <= totalReturn [ten_at_100] /\
   0 <= totalFees [ten_at_100]) /\
  exists records', Forall in_range records' /\ totalPnL records' < 0.
Proof.
  assert (H : Forall in_range [ten_at_100])
    by (constructor; [apply ten_at_100_in_range | constructor]).
  split; [exact H | exact (statistics_signs [ten_at_100] H)].
Defined.

(** C5. The value a table row shows is -(quantity x price + commission + tax)
    for a buy record and +(quantity x price + commission + tax) for a sell
    record, an absent commission or tax counting as 0. *)
Theorem row_display_value (record : TradingRecord) :
  rowSign record
    = match transaction_type record with buy => "-" | sell => "+" end /\
  rowAmount record == gross record + fees record /\
  signedValue (rowDisplay record)
    == match transaction_type record with
       | buy => - (gross record + fees record)
       | sell => gross record + fees record
       end.
Proof.
  assert (A : rowAmount record == gross record + fees record).
  { unfold rowAmount, gross, fees. rewrite !or0_absent_as_0. ring. }
  split; [|split]; [| exact A |].
  - unfold rowSign. destruct (transaction_type record); reflexivity.
  - unfold signedValue, rowDisplay, rowSign. simpl.
    destruct (transaction_type record); simpl; rewrite A; reflexivity.
Qed.

End DashboardFacts.

(** ** The store *)

(** Case analysis on the columns of an [assemble] that returned a row. *)
Ltac split_columns H :=
  repeat match type of H with
  | context [mbind _ ?x] =>
      let E := fresh "E" in destruct x eqn:E; simpl in H; [|discriminate H]
  end.

Section StoreFacts.
Import Schema Store.

(** An assembled row holds, column by column, the value [col] finds. *)
Lemma assemble_columns (env : Env) (fb : Fallback) (body : gmap string json)
    (row : TradingRecord) :
  assemble env fb body = Some row ->
  col dec_text (fb_id fb) body "id" = Some (id row) /\
  col dec_text (fb_user_id fb) body "user_id" = Some (user_id row) /\
  col (dec_date env) (fb_trade_date fb) body "trade_date"
    = Some (trade_date row) /\
  col dec_text (fb_stock_symbol fb) body "stock_symbol"
    = Some (stock_symbol row) /\
  col dec_text_null (fb_stock_name fb) body "stock_name"
    = Some (stock_name row) /\
  col dec_type (fb_transaction_type fb) body "transaction_type"
    = Some (transaction_type row) /\
  col dec_integer (fb_quantity fb) body "quantity" = Some (quantity row) /\
  col dec_numeric (fb_price fb) body "price" = Some (price row) /\
  col dec_numeric_null (fb_commission fb) body "commission"
    = Some (commission row) /\
  col dec_numeric_null (fb_tax fb) body "tax" = Some (tax row) /\
  col dec_text_null (fb_notes fb) body "notes" = Some (notes row) /\
  col dec_text (fb_created_at fb) body "created_at" = Some (created_at row) /\
  col dec_text (fb_updated_at fb) body "updated_at" = Some (updated_at row).
Proof.
  unfold assemble. intros H. split_columns H.
  injection H as <-. simpl. repeat split; assumption.
Qed.

(** A column the body does not name keeps its fallback. *)
Lemma col_absent {A} (decode : json -> option A) (fallback : option A)
    (body : gmap string json) (name : string) :
  body !! name = None -> col decode fallback body name = fallback.
Proof. unfold col. intros ->. reflexivity. Qed.

Lemma update_row_identity (env : Env) (body : gmap string json)
    (r r' : TradingRecord) :
  body !! "id"%string = None -> body !! "user_id"%string = None ->
  body !! "created_at"%string = None ->
  update_row env body r = Some r' ->
  identity_columns r' = identity_columns r.
Proof.
  intros Hid Hu Hc. unfold update_row.
  destruct (assemble env (old_values r) body) as [new|] eqn:A; simpl;
    [|discriminate].
  destruct (decide _); [|discriminate]. intros [= <-].
  apply assemble_columns in A.
  destruct A as (A1 & A2 & _ & _ & _ & _ & _ & _ & _ & _ & _ & A12 & _).
  rewrite col_absent in A1, A2, A12 by assumption. simpl in A1, A2, A12.
  unfold identity_columns. simpl. congruence.
Qed.

(** An update whose body names none of the three columns leaves them as
    they were in every row, whether it succeeds or not. *)
Lemma update_identity (env : Env) (body : gmap string json) (rid : string)
    (table table' : list TradingRecord) :
  body !! "id"%string = None -> body !! "user_id"%string = None ->
  body !! "created_at"%string = None ->
  update env body rid table = Some table' ->
  identity_columns <$> table' = identity_columns <$> table.
Proof.
  intros Hid Hu Hc. unfold update. destruct (online env); [|discriminate].
  intros H. apply mapM_Some_1 in H.
  induction H as [|r r' l l' Hr _ IH]; [reflexivity|].
  rewrite !fmap_cons. f_equal; [|exact IH].
  destruct (decide _); [|congruence].
  eapply update_row_identity; eassumption.
Qed.

End StoreFacts.

(** ** The record form *)

Section FormFacts.
Import Schema Store.
Context {JS : JSRuntime}.

Lemma upper_ascii_idempotent (c : ascii) :
  upper_ascii (upper_ascii c) = upper_ascii c.
Proof.
  destruct c as [[] [] [] [] [] [] [] []]; reflexivity.
Qed.

Lemma asciiUpper_idempotent (s : string) :
  asciiUpper (asciiUpper s) = asciiUpper s.
Proof.
  induction s as [|c s IH]; simpl; [reflexivity|].
  rewrite upper_ascii_idempotent, IH. reflexivity.
Qed.

Lemma upper_ascii_not_lower (c : ascii) : is_lower (upper_ascii c) = false.
Proof.
  destruct c as [[] [] [] [] [] [] [] []]; reflexivity.
Qed.

(** Upper-casing leaves no letter [a]-[z]. *)
Lemma asciiUpper_no_lower_case (s : string) : no_lower_case (asciiUpper s).
Proof.
  induction s as [|c s IH]; simpl; [exact I|].
  split; [apply upper_ascii_not_lower | exact IH].
Qed.

(** The row an update body of the form describes over the fallbacks [fb]. *)
Lemma assemble_recordData (env : Env) (fb : Fallback)
    (formData : Form.FormData) :
  assemble env fb (Form.recordData formData) =
  (c1 ← fb_id fb;
   c2 ← fb_user_id fb;
   c3 ← date_in env (Form.trade_date formData);
   c5 ← dec_text_null (or_null (Form.stock_name formData));
   c6 ← dec_type (JString (Form.transaction_type formData));
   c7 ← dec_integer
          (number_json (inject_Z <$> parseInt (Form.quantity formData)));
   c8 ← dec_numeric (number_json (parseFloat (Form.price formData)));
   c9 ← dec_numeric_null
          (number_json (Form.fee_value (Form.commission formData)));
   c10 ← dec_numeric_null (number_json (Form.fee_value (Form.tax formData)));
   c11 ← dec_text_null (or_null (Form.notes formData));
   c12 ← fb_created_at fb;
   c13 ← fb_updated_at fb;
   Some {| id := c1; user_id := c2;
           trade_date := c3;
           stock_symbol := toUpperCase (Form.stock_symbol formData);
           stock_name := c5; transaction_type := c6; quantity := c7;
           price := c8; commission := c9; tax := c10; notes := c11;
           created_at := c12; updated_at := c13 |}).
Proof. reflexivity. Qed.

(** The same for the insert body, which adds [user_id]. *)
Lemma assemble_insert_body (env : Env) (fb : Fallback)
    (formData : Form.FormData) (uid : string) :
  assemble env fb
    (<["user_id"%string := JString uid]> (Form.recordData formData)) =
  (c1 ← fb_id fb;
   c3 ← date_in env (Form.trade_date formData);
   c5 ← dec_text_null (or_null (Form.stock_name formData));
   c6 ← dec_type (JString (Form.transaction_type formData));
   c7 ← dec_integer
          (number_json (inject_Z <$> parseInt (Form.quantity formData)));
   c8 ← dec_numeric (number_json (parseFloat (Form.price formData)));
   c9 ← dec_numeric_null
          (number_json (Form.fee_value (Form.commission formData)));
   c10 ← dec_numeric_null (number_json (Form.fee_value (Form.tax formData)));
   c11 ← dec_text_null (or_null (Form.notes formData));
   c12 ← fb_created_at fb;
   c13 ← fb_updated_at fb;
   Some {| id := c1; user_id := uid;
           trade_date := c3;
           stock_symbol := toUpperCase (Form.stock_symbol formData);
           stock_name := c5; transaction_type := c6; quantity := c7;
           price := c8; commission := c9; tax := c10; notes := c11;
           created_at := c12; updated_at := c13 |}).
Proof. reflexivity. Qed.


(** C10. An update never changes a record's id, owner or createdAt: whatever
    the form holds, the body of the update request has exactly the nine
    editable columns, none of [id], [user_id], [created_at], and the three
    columns are the same in every row of the table afterwards. *)
Theorem update_keeps_identity_columns (env : Env) (formData : Form.FormData)
    (record : TradingRecord) (user : option Auth.User)
    (table : list TradingRecord) :
  let out := Form.handleSubmit env formData (Some record) user table in
  Form.requests out = [Form.Update (Form.recordData formData) (id record)] /\
  dom (Form.recordData formData)
    = list_to_set ["trade_date"; "stock_symbol"; "stock_name";
                   "transaction_type"; "quantity"; "price"; "commission";
                   "tax"; "notes"]%string /\
  Form.recordData formData !! "id"%string = None /\
  Form.recordData formData !! "user_id"%string = None /\
  Form.recordData formData !! "created_at"%string = None /\
  identity_columns <$> Form.table_after out = identity_columns <$> table.
Proof.
  cbv zeta. unfold Form.handleSubmit. simpl.
  destruct (update env (Form.recordData formData) (id record) table)
    as [table'|] eqn:U; simpl.
  - repeat split; try reflexivity.
    eapply update_identity; [..|exact U]; reflexivity.
  - repeat split; reflexivity.
Qed.

(** C9. Creating a record without an authenticated user fails before any
    insert is attempted and persists nothing; and an insert is only ever
    attempted with the authenticated user's identifier as the owner of the
    record. *)
Theorem create_requires_user (env : Env) (formData : Form.FormData)
    (table : list TradingRecord) :
  Form.handleSubmit env formData None None table
    = {| Form.table_after := table; Form.requests := [];
         Form.toast := Form.SaveFailed false; Form.onSuccess := false |} /\
  (forall user req,
     req ∈ Form.requests (Form.handleSubmit env formData None user table) ->
     exists u body,
       user = Some u /\ Auth.id u <> ""%string /\
       req = Form.Insert body /\
       body !! "user_id"%string = Some (JString (Auth.id u))) /\
  (forall user,
     let out := Form.handleSubmit env formData None user table in
     Form.table_after out = table \/
     exists u row,
       user = Some u /\ Form.table_after out = table ++ [row] /\
       user_id row = Auth.id u).
Proof.
  split; [reflexivity|]. split.
  - intros user req. unfold Form.handleSubmit, Form.request.
    destruct user as [u|]; [|simpl; intros H; inversion H].
    destruct (decide (Auth.id u = ""%string)) as [E|E];
      [simpl; intros H; inversion H|].
    intros H. exists u, (<["user_id"%string := JString (Auth.id u)]>
                           (Form.recordData formData)).
    assert (req = Form.Insert (<["user_id"%string := JString (Auth.id u)]>
                                 (Form.recordData formData))) as ->.
    { destruct (Form.perform _ _ _); simpl in H;
        apply list_elem_of_singleton in H; exact H. }
    split; [reflexivity|]. split; [exact E|]. split; reflexivity.
  - intros user. cbv zeta. unfold Form.handleSubmit, Form.request.
    destruct user as [u|]; [|left; reflexivity].
    destruct (decide (Auth.id u = ""%string)); [left; reflexivity|].
    unfold Form.perform, insert.
    destruct (online env); [|left; reflexivity].
    destruct (assemble env (defaults env) _) as [row|] eqn:A; simpl;
      [|left; reflexivity].
    destruct (decide (owned env row)); [|left; reflexivity].
    destruct (decide (id row ∈ id <$> table)); [left; reflexivity|].
    right. exists u, row. split; [reflexivity|]. split; [reflexivity|].
    rewrite assemble_insert_body in A. simpl in A. split_columns A.
    injection A as <-. reflexivity.
Qed.


(** *** Updating the price *)

Lemma dec_integer_inject (z c : Z) :
  dec_integer (JNumber (inject_Z z)) = Some c -> c = z.
Proof.
  unfold dec_integer. rewrite Qfloor_Z. destruct (_ && _); congruence.
Qed.

Lemma dec_type_name (t : TransactionType) :
  dec_type (JString (type_name t)) = Some t.
Proof. destruct t; reflexivity. Qed.

Lemma text_comes_back (s : option string) :
  s <> Some ""%string -> dec_text_null (or_null (or_empty s)) = Some s.
Proof.
  intros H. destruct s as [s|]; [|reflexivity]. simpl. unfold or_null.
  destruct (decide (s = ""%string)); [congruence | reflexivity].
Qed.

Lemma fee_comes_back (x : option Q) :
  is_Some x ->
  (forall c, x = Some c -> Form.fee_value (toString c) = Some c) ->
  dec_numeric_null (number_json (Form.fee_value (or_empty (toString <$> x))))
    = Some x.
Proof.
  intros [c ->] H. simpl. rewrite (H c eq_refl). reflexivity.
Qed.

(** The form loaded from a record, with another text in the price field. *)
Lemma price_edit (text : string) (r : TradingRecord) :
  Form.handleInputChange "price" text (Form.loadRecord r) =
  {| Form.trade_date := isoDate (trade_date r);
     Form.stock_symbol := stock_symbol r;
     Form.stock_name := or_empty (stock_name r);
     Form.transaction_type := type_name (transaction_type r);
     Form.quantity := toString (inject_Z (quantity r));
     Form.price := text;
     Form.commission := or_empty (toString <$> commission r);
     Form.tax := or_empty (toString <$> tax r);
     Form.notes := or_empty (notes r) |}.
Proof. reflexivity. Qed.

(** The columns of a row the store wrote for a record edited in its price
    alone: the price is the number of the new text, the time of update is
    that of the statement, and every other column is as it was. *)
Lemma price_edit_row (env : Env) (r r' : TradingRecord) (text : string) :
  toUpperCase (stock_symbol r) = stock_symbol r ->
  stock_name r <> Some ""%string -> notes r <> Some ""%string ->
  is_Some (commission r) -> is_Some (tax r) ->
  Form.reads_back env r ->
  update_row env
    (Form.recordData (Form.handleInputChange "price" text (Form.loadRecord r)))
    r
  = Some r' ->
  Form.others_unchanged r r' /\
  parseFloat text = Some (price r') /\ updated_at r' = now env.
Proof.
  intros Hs Hn Hnotes Hc Ht (Hd & Hq & Hfee). unfold update_row.
  destruct (assemble env (old_values r) _) as [new|] eqn:A; simpl;
    [|discriminate].
  destruct (decide _); [|discriminate]. intros [= <-].
  rewrite assemble_recordData, price_edit in A.
  cbn [Form.trade_date Form.stock_symbol Form.stock_name
       Form.transaction_type Form.quantity Form.price Form.commission
       Form.tax Form.notes old_values fb_id fb_user_id fb_created_at
       fb_updated_at mbind option_bind] in A.
  rewrite !text_comes_back in A by assumption.
  rewrite dec_type_name in A.
  rewrite !fee_comes_back in A by (try assumption; intros c E; apply Hfee; auto).
  cbn [mbind option_bind] in A.
  destruct (date_in env (isoDate (trade_date r))) as [d|] eqn:Ed;
    cbn [mbind option_bind] in A; [|discriminate].
  destruct (parseInt (toString (inject_Z (quantity r)))) as [z|] eqn:Ez;
    [|discriminate].
  cbn [fmap option_fmap option_map number_json] in A.
  destruct (dec_integer (JNumber (inject_Z z))) as [c|] eqn:Ec;
    cbn [mbind option_bind] in A; [|discriminate].
  apply dec_integer_inject in Ec. subst c.
  destruct (parseFloat text) as [p|];
    cbn [number_json dec_numeric mbind option_bind] in A; [|discriminate].
  injection A as <-. rewrite Hs, (Hd _ eq_refl), (Hq _ eq_refl).
  unfold Form.others_unchanged. simpl. repeat split.
Qed.

(** C6, as the code has it. For a record whose commission and tax are
    present, whose symbol is in upper case already, whose name and notes are
    not empty strings and whose stored values read back from the texts of
    the form, submitting the form with another price alone leaves every
    field but price and updatedAt as it was, whether the update succeeds or
    not; and when it succeeds on a record the caller owns, the price is the
    number of the new text and updatedAt the time of the update. *)
Theorem price_update_changes_price_and_updated_at (env : Env)
    (r : TradingRecord) (text : string) (user : option Auth.User)
    (table : list TradingRecord) (i : nat) :
  table !! i = Some r ->
  is_Some (commission r) -> is_Some (tax r) ->
  toUpperCase (stock_symbol r) = stock_symbol r ->
  stock_name r <> Some ""%string -> notes r <> Some ""%string ->
  Form.reads_back env r ->
  let formData := Form.handleInputChange "price" text (Form.loadRecord r) in
  let out := Form.handleSubmit env formData (Some r) user table in
  exists r',
    Form.table_after out !! i = Some r' /\
    Form.others_unchanged r r' /\
    (Form.toast out = Form.Saved true -> owned env r ->
     parseFloat text = Some (price r') /\ updated_at r' = now env).
Proof.
  intros Hi Hc Ht Hs Hn Hnotes Hrb. cbv zeta.
  unfold Form.handleSubmit, Form.request, Form.perform.
  destruct (update env _ (id r) table) as [table'|] eqn:U; simpl.
  - unfold update in U. destruct (online env); [|discriminate].
    apply mapM_Some_1 in U.
    destruct (Forall2_lookup_l _ _ _ _ _ U Hi) as (r' & Hr' & Hf).
    exists r'. split; [exact Hr'|].
    destruct (decide (id r = id r /\ owned env r)) as [_|N].
    + destruct (price_edit_row env r r' text Hs Hn Hnotes Hc Ht Hrb Hf)
        as (Ho & Hp & Hu).
      split; [exact Ho|]. intros _ _. split; assumption.
    + injection Hf as <-. split; [repeat split|].
      intros _ Ho. exfalso. apply N. split; [reflexivity | exact Ho].
  - exists r. split; [exact Hi|]. split; [repeat split | discriminate].
Qed.

End FormFacts.

(** *** The form on the example data *)

Section FormExamples.
Import Schema Store Examples.

(** The example runtime reads every integer back from its text. *)
Lemma integer_runtime_round_trip (z : Z) :
  IntegerRuntime.parse (IntegerRuntime.print (inject_Z z)) = Some z.
Proof.
  unfold IntegerRuntime.parse, IntegerRuntime.print. rewrite Qfloor_Z.
  rewrite DecimalString.NilZero.isi.
  - simpl. rewrite DecimalZ.of_to. reflexivity.
  - destruct z as [|q|q]; simpl; try discriminate.
    intros [= E]. pose proof (DecimalPos.Unsigned.of_to q) as H.
    rewrite E in H. discriminate H.
  - destruct z as [|q|q]; simpl; try discriminate.
    intros [= E]. pose proof (DecimalPos.Unsigned.of_to q) as H.
    rewrite E in H. discriminate H.
Qed.

Lemma ten_at_100_reads_back :
  Form.reads_back (JS := IntegerRuntime.runtime) session ten_at_100.
Proof.
  split; [|split].
  - intros d H. vm_compute in H. injection H as <-. reflexivity.
  - intros z H. vm_compute in H. injection H as <-. reflexivity.
  - intros c [E|E]; injection E as <-; reflexivity.
Defined.

Lemma ten_at_100_normalised : Form.normalised ten_at_100.
Proof.
  split; [reflexivity|]. split; [discriminate|]. split; [discriminate|].
  split; eexists; reflexivity.
Defined.


Lemma price_update_changes_price_and_updated_at_witness :
  Form.toast
    (Form.handleSubmit (JS := IntegerRuntime.runtime) session
       (Form.handleInputChange "price" "120"
          (Form.loadRecord (JS := IntegerRuntime.runtime) ten_at_100))
       (Some ten_at_100) (Some alice) [ten_at_100])
    = Form.Saved true /\
  owned session ten_at_100 /\
  exists r',
    repriced_at_120 IntegerRuntime.runtime ten_at_100 !! 0%nat = Some r' /\
    Form.others_unchanged ten_at_100 r' /\
    price r' = 120 /\ updated_at r' = now session.
Proof.
  split; [reflexivity|]. split; [reflexivity|].
  destruct (price_update_changes_price_and_updated_at
              (JS := IntegerRuntime.runtime) session ten_at_100 "120"
              (Some alice) [ten_at_100] 0 eq_refl
              (ex_intro _ _ eq_refl) (ex_intro _ _ eq_refl) eq_refl
              ltac:(discriminate) ltac:(discriminate)
              ten_at_100_reads_back)
    as (r' & Hr & Ho & Hp).
  exists r'. split; [exact Hr|]. split; [exact Ho|].
  destruct (Hp eq_refl eq_refl) as [Hprice Hu].
  split; [|exact Hu]. injection Hprice as <-. reflexivity.
Defined.

(** C6, as the specification has it, fails: a price update sends all nine
    fields again as the form rebuilds them.  So a record stored without a
    commission comes out with the commission 0, one with a symbol in lower
    case with the symbol in upper case, one with an empty name or empty
    notes with none, and one with a commission of more digits than a
    JavaScript number holds with the commission as the number prints. *)
Lemma price_update_rewrites_other_fields :
  (exists r',
     repriced_at_120 IntegerRuntime.runtime no_commission = [r'] /\
     commission no_commission = None /\ commission r' = Some 0 /\
     ~ Form.others_unchanged no_commission r') /\
  (exists r',
     repriced_at_120 IntegerRuntime.runtime lower_case_symbol = [r'] /\
     stock_symbol lower_case_symbol = "tsm"%string /\
     stock_symbol r' = "TSM"%string /\
     ~ Form.others_unchanged lower_case_symbol r') /\
  (exists r',
     repriced_at_120 IntegerRuntime.runtime empty_name = [r'] /\
     stock_name empty_name = Some ""%string /\ stock_name r' = None /\
     ~ Form.others_unchanged empty_name r') /\
  (exists r',
     repriced_at_120 IntegerRuntime.runtime empty_notes = [r'] /\
     notes empty_notes = Some ""%string /\ notes r' = None /\
     ~ Form.others_unchanged empty_notes r') /\
  (exists r',
     repriced_at_120 RoundingRuntime.runtime long_commission = [r'] /\
     commission long_commission = Some RoundingRuntime.long_decimal /\
     commission r' = Some RoundingRuntime.as_printed /\
     ~ RoundingRuntime.as_printed == RoundingRuntime.long_decimal /\
     ~ Form.others_unchanged long_commission r').
Proof.
  repeat split_and; eexists;
    (split; [vm_compute; reflexivity|]);
    (split; [reflexivity|]); (split; [reflexivity|]).
  - intros (_ & _ & _ & _ & _ & _ & _ & H & _). discriminate H.
  - intros (_ & _ & _ & H & _). discriminate H.
  - intros (_ & _ & _ & _ & H & _). discriminate H.
  - intros (_ & _ & _ & _ & _ & _ & _ & _ & _ & H & _). discriminate H.
  - split; [intros H; vm_compute in H; discriminate H|].
    intros (_ & _ & _ & _ & _ & _ & _ & H & _). discriminate H.
Qed.

End FormExamples.

(** ** The role hook *)

Section RoleHookFacts.
Import RoleHook Examples.

Lemma cleanup_length (rs : list Run) : length (cleanup rs) = length rs.
Proof. unfold cleanup. apply length_alter. Qed.

(** After a change to a user, the new run is the last one and its query is
    in flight. *)
Lemma query_started (h : Hook) (u : Auth.User) :
  runs (step h (UserChanged (Some u))) !! length (runs h)
  = Some {| run_user := Some u; mounted := true; pending := true |}.
Proof.
  simpl. apply list_lookup_middle. symmetry. apply cleanup_length.
Qed.

(** A query that settles sets the role, whether or not its run is still
    mounted: [mounted] is read in [finally] only, for [setLoading]. *)
Lemma settled_query_sets_role (h : Hook) (k : nat) (r : Run) (s : Settled) :
  runs h !! k = Some r -> pending r = true ->
  role (step h (QuerySettled k s)) = Some (fetchedRole s).
Proof. intros Hk Hp. simpl. rewrite Hk, Hp. reflexivity. Qed.

Lemma stale_query_keeps_loading (h : Hook) (k : nat) (r : Run) (s : Settled) :
  runs h !! k = Some r -> mounted r = false ->
  loading (step h (QuerySettled k s)) = loading h.
Proof.
  intros Hk Hm. simpl. rewrite Hk, Hm. destruct (pending r); reflexivity.
Qed.

(** C3. For every authenticated user the hook ends with the role 'user',
    and not 'admin', when the lookup finds no row, when it returns a store
    error, and when it throws. *)
Theorem lookup_without_row_or_failed_gives_user (h : Hook) (u : Auth.User)
    (data : option Role) :
  let started := step h (UserChanged (Some u)) in
  let k := length (runs h) in
  let no_row := step started (QuerySettled k (Fulfilled None false)) in
  let store_error := step started (QuerySettled k (Fulfilled data true)) in
  let thrown := step started (QuerySettled k Rejected) in
  (role no_row = Some user /\ isAdmin no_row = false) /\
  (role store_error = Some user /\ isAdmin store_error = false) /\
  (role thrown = Some user /\ isAdmin thrown = false).
Proof.
  cbv zeta. unfold isAdmin.
  rewrite !(settled_query_sets_role _ _ _ _ (query_started h u) eq_refl).
  repeat split; reflexivity.
Qed.

(** C2 fails on the code. Alice is an admin, Bob has no role row. After
    Alice, nobody, Bob (or Alice, then Bob at once), with Bob's query
    settling before Alice's, every query has settled with the answer of the
    store, the current user is Bob, whose role is 'user', and the hook says
    'admin': the stale answer for Alice was written over Bob's. *)
Theorem stale_lookup_overwrites_role :
  actual_role user_roles bob = user /\
  (let h := run switch_via_sign_out in
   current_user h = Some bob /\
   Forall (fun r => pending r = false) (runs h) /\
   role h = Some admin /\ isAdmin h = true /\ loading h = false) /\
  (let h := run switch_direct in
   current_user h = Some bob /\
   Forall (fun r => pending r = false) (runs h) /\
   role h = Some admin /\ isAdmin h = true /\ loading h = false).
Proof.
  split; [reflexivity|].
  split; cbv zeta; (split; [reflexivity|]);
    (split; [vm_compute; repeat constructor|]);
    repeat split; reflexivity.
Qed.

End RoleHookFacts.

(** ** The list of the dashboard *)

Section JournalFacts.
Import Schema Store Journal.
Context {JS : JSRuntime}.

Lemma string_compare_trans (s1 s2 s3 : string) :
  String.compare s1 s2 <> Gt -> String.compare s2 s3 <> Gt ->
  String.compare s1 s3 <> Gt.
Proof.
  revert s2 s3. induction s1 as [|a s1 IH]; intros [|b s2] [|c s3]; simpl;
    try (intros; congruence).
  unfold Ascii.compare.
  destruct (N.compare_spec (N_of_ascii a) (N_of_ascii b));
    destruct (N.compare_spec (N_of_ascii b) (N_of_ascii c));
    destruct (N.compare_spec (N_of_ascii a) (N_of_ascii c));
    try (intros; congruence); try lia.
  apply IH.
Qed.

#[local] Instance later_first_trans : Transitive later_first.
Proof.
  intros x y z. unfold later_first, String.leb. intros Hxy Hyz.
  pose proof (string_compare_trans (trade_date z) (trade_date y)
                (trade_date x)) as T.
  destruct (String.compare (trade_date z) (trade_date y)); try discriminate;
    destruct (String.compare (trade_date y) (trade_date x)); try discriminate;
    destruct (String.compare (trade_date z) (trade_date x)); try reflexivity;
    exfalso; apply T; congruence.
Qed.

#[local] Instance later_first_total : Total later_first.
Proof.
  intros x y. unfold later_first.
  destruct (String.leb_total (trade_date y) (trade_date x)); auto.
Qed.

(** Leaving rows out of a sorted list keeps it sorted. *)
Lemma Sorted_later_first_filter (P : TradingRecord -> Prop)
    `{forall r, Decision (P r)} (l : list TradingRecord) :
  Sorted later_first l -> Sorted later_first (filter P l).
Proof.
  intros Hs. apply Sorted_StronglySorted in Hs; [|apply _].
  apply StronglySorted_Sorted.
  induction Hs as [|x l _ IH Hx]; [constructor|].
  rewrite filter_cons. destruct (decide (P x)); [|exact IH].
  constructor; [exact IH|]. apply Forall_forall. intros y Hy.
  apply list_elem_of_filter in Hy as [_ Hy].
  rewrite Forall_forall in Hx. auto.
Qed.

(** The answer of the store to [fetchRecords] is in sync with the table. *)
Lemma select_in_sync (env : Env) (table data : list TradingRecord) :
  select env table = Some data -> in_sync env table data.
Proof.
  unfold select. destruct (online env); [|discriminate]. intros [= <-].
  split; [apply merge_sort_Permutation | apply Sorted_merge_sort; apply _].
Qed.

(** The rows of the caller that remain after a delete. *)
Lemma delete_visible (env : Env) (rid : string) (table : list TradingRecord) :
  filter (owned env) (filter (fun r => ~ (id r = rid /\ owned env r)) table)
  = filter (fun r => id r <> rid) (filter (owned env) table).
Proof.
  rewrite !list_filter_filter. apply list_filter_iff. intros r. tauto.
Qed.

Lemma in_sync_elem_of (env : Env) (table l : list TradingRecord)
    (r : TradingRecord) :
  in_sync env table l -> (r ∈ l <-> r ∈ table /\ owned env r).
Proof.
  intros [Hp _]. rewrite Hp, list_elem_of_filter. tauto.
Qed.

(** [fetchRecords] shows the caller's rows and no others: with the store
    reachable the list holds, each once and the later date first, exactly
    the rows of the table whose [user_id] is the caller's; with a store
    error the list is kept and one toast is added.  [loading] is cleared
    either way. *)
Theorem fetch_lists_own_rows (env : Env) (table : list TradingRecord)
    (s : State) :
  let s' := fetchRecords env table s in
  loading s' = false /\
  if online env
  then in_sync env table (records s') /\
       (forall r, r ∈ records s' <-> r ∈ table /\ owned env r) /\
       length (records s') = length (filter (owned env) table) /\
       toasts s' = toasts s
  else records s' = records s /\ toasts s' = toasts s ++ [LoadFailed].
Proof.
  cbv zeta. unfold fetchRecords.
  destruct (select env table) as [data|] eqn:E.
  - pose proof (select_in_sync _ _ _ E) as Hs. unfold select in E.
    destruct (online env); [|discriminate]. simpl.
    split; [reflexivity|]. split; [exact Hs|].
    split; [intros r; apply in_sync_elem_of; exact Hs|].
    split; [|reflexivity]. destruct Hs as [Hp _]. rewrite Hp. reflexivity.
  - unfold select in E. destruct (online env); [discriminate|]. simpl.
    repeat split.
Qed.

(** What a successful create appends. *)
Lemma created_row (env : Env) (formData : Form.FormData)
    (user : option Auth.User) (table : list TradingRecord) :
  Form.toast (Form.handleSubmit env formData None user table)
    = Form.Saved false ->
  exists u row,
    user = Some u /\
    Form.table_after (Form.handleSubmit env formData None user table)
      = table ++ [row] /\
    user_id row = Auth.id u /\ owned env row /\
    (id row ∉ id <$> table) /\ online env = true.
Proof.
  unfold Form.handleSubmit, Form.request.
  destruct user as [u|]; [|discriminate].
  destruct (decide (Auth.id u = ""%string)); [discriminate|].
  unfold Form.perform, insert.
  destruct (online env); [|discriminate].
  destruct (assemble env (defaults env) _) as [row|] eqn:A; simpl; [|discriminate].
  destruct (decide (owned env row)) as [Ho|]; [|discriminate].
  destruct (decide (id row ∈ id <$> table)) as [|Hid]; [discriminate|].
  intros _. exists u, row. repeat split; try assumption.
  apply assemble_columns in A. destruct A as (_ & A & _).
  unfold col in A. rewrite lookup_insert_eq in A. simpl in A. congruence.
Qed.

(** A record one user creates is never in the list another user fetches. *)
Theorem created_row_hidden_from_others (envA envB : Env)
    (formData : Form.FormData) (a : Auth.User)
    (table : list TradingRecord) (s : State) :
  Form.toast (Form.handleSubmit envA formData None (Some a) table)
    = Form.Saved false ->
  auth_uid envB <> Some (Auth.id a) ->
  exists row,
    Form.table_after (Form.handleSubmit envA formData None (Some a) table)
      = table ++ [row] /\
    (row ∉ records s ->
     row ∉ records (fetchRecords envB (table ++ [row]) s)).
Proof.
  intros Hok Hb. destruct (created_row _ _ _ _ Hok)
    as (u & row & [= <-] & Ht & Hu & _).
  exists row. split; [exact Ht|]. intros Hs. unfold fetchRecords.
  destruct (select envB (table ++ [row])) as [data|] eqn:E; [|exact Hs].
  simpl. rewrite (in_sync_elem_of _ _ _ _ (select_in_sync _ _ _ E)).
  intros [_ Ho]. unfold owned in Ho. rewrite Hu in Ho. exact (Hb Ho).
Qed.

(** [handleDeleteRecord] keeps the list in sync with the table without a
    second fetch, and never removes a row of another user, when the list the
    handler captured at its rendering and the list of the state both are in
    sync with the table the store holds at the delete.  A handler made by an
    earlier rendering carries an older list, which nothing here speaks of. *)
Theorem delete_keeps_list_in_sync (env : Env) (rid : string)
    (table captured : list TradingRecord) (s : State) :
  in_sync env table captured ->
  in_sync env table (records s) ->
  let res := handleDeleteRecord env rid table captured s in
  in_sync env res.1 (records res.2) /\
  filter (fun r => ~ owned env r) res.1 = filter (fun r => ~ owned env r) table /\
  (online env = true -> Forall (fun r => id r <> rid) (records res.2)).
Proof.
  intros [Hp Hs] Hstate. cbv zeta. unfold handleDeleteRecord, delete.
  destruct (online env); simpl.
  - split; [split|split].
    + rewrite delete_visible, Hp. reflexivity.
    + apply Sorted_later_first_filter. exact Hs.
    + rewrite list_filter_filter. apply list_filter_iff. intros r. tauto.
    + intros _. apply Forall_forall. intros r Hr.
      apply list_elem_of_filter in Hr as [Hr _]. exact Hr.
  - split; [exact Hstate|]. split; [reflexivity|discriminate].
Qed.

Lemma filter_all {A} (P : A -> Prop) `{forall x, Decision (P x)} (l : list A) :
  Forall P l -> filter P l = l.
Proof.
  induction 1 as [|x l Hx _ IH]; [reflexivity|].
  rewrite filter_cons, decide_True by exact Hx. rewrite IH. reflexivity.
Qed.

(** Creating a record and deleting it again gives back the table as it was. *)
Theorem create_then_delete_restores_table (env : Env)
    (formData : Form.FormData) (user : option Auth.User)
    (table captured : list TradingRecord) (s : State) :
  Form.toast (Form.handleSubmit env formData None user table)
    = Form.Saved false ->
  exists row,
    Form.table_after (Form.handleSubmit env formData None user table)
      = table ++ [row] /\
    (handleDeleteRecord env (id row) (table ++ [row]) captured s).1 = table.
Proof.
  intros Hok. destruct (created_row _ _ _ _ Hok)
    as (u & row & _ & Ht & _ & Ho & Hid & Hon).
  exists row. split; [exact Ht|].
  unfold handleDeleteRecord, delete. rewrite Hon. simpl.
  rewrite filter_app, filter_cons, filter_nil.
  rewrite decide_False by (intros N; apply N; split; [reflexivity|exact Ho]).
  rewrite app_nil_r. apply filter_all. apply Forall_forall.
  intros r Hr [E _]. apply Hid. rewrite <- E.
  apply list_elem_of_fmap_2. exact Hr.
Qed.

(** A submit from the dashboard that succeeds closes the form and fetches
    the list again.  The fetch is a request of its own, met by the store as
    [env']: where it is answered the list is in sync with the table as
    written, where it fails the list stays as it was, behind the table, and
    a toast says so.  A submit that fails changes nothing. *)
Theorem submit_refreshes_list (env env' : Env) (formData : Form.FormData)
    (user : option Auth.User) (table : list TradingRecord) (s : State) :
  let res := submitForm env env' formData user table s in
  if Form.onSuccess
       (Form.handleSubmit env formData (editingRecord s) user table)
  then showForm res.2 = false /\ editingRecord res.2 = None /\
       loading res.2 = false /\
       if online env'
       then in_sync env' res.1 (records res.2) /\ toasts res.2 = toasts s
       else records res.2 = records s /\
            toasts res.2 = toasts s ++ [LoadFailed]
  else res = (table, s).
Proof.
  cbv zeta. unfold submitForm, Form.handleSubmit.
  destruct (Form.request formData (editingRecord s) user) as [req|];
    [|reflexivity].
  destruct (Form.perform env req table) as [table'|] eqn:P; [|reflexivity].
  simpl. unfold handleFormSuccess, fetchRecords, select.
  destruct (online env'); simpl.
  - repeat split.
    + apply merge_sort_Permutation.
    + apply Sorted_merge_sort. apply _.
  - repeat split.
Qed.

End JournalFacts.

(** ** More on the record form *)

Section FormMoreFacts.
Import Schema Store.
Context {JS : JSRuntime}.

(** Two edits in a row: on one field the later text wins, on two fields the
    order does not matter. *)
Theorem edits_compose (f1 v1 f2 v2 : string) (formData : Form.FormData) :
  Form.handleInputChange f2 v2 (Form.handleInputChange f1 v1 formData) =
  if decide (f1 = f2) then Form.handleInputChange f2 v2 formData
  else Form.handleInputChange f1 v1 (Form.handleInputChange f2 v2 formData).
Proof.
  destruct (decide (f1 = f2)) as [->|N]; unfold Form.handleInputChange; simpl;
    f_equal; repeat case_decide; congruence.
Qed.

(** *** Numbers that do not parse *)

Lemma unparsable_body_assembles_no_row (env : Env) (fb : Fallback)
    (formData : Form.FormData) :
  parseInt (Form.quantity formData) = None \/
  parseFloat (Form.price formData) = None ->
  assemble env fb (Form.recordData formData) = None.
Proof.
  intros H. rewrite assemble_recordData.
  destruct (fb_id fb); [|reflexivity]. cbn [mbind option_bind].
  destruct (fb_user_id fb); [|reflexivity]. cbn [mbind option_bind].
  destruct (date_in env (Form.trade_date formData)); [|reflexivity].
  cbn [mbind option_bind].
  destruct (dec_text_null (or_null (Form.stock_name formData)));
    [|reflexivity]. cbn [mbind option_bind].
  destruct (dec_type (JString (Form.transaction_type formData)));
    [|reflexivity]. cbn [mbind option_bind].
  destruct H as [H|H]; rewrite H; [reflexivity|].
  destruct (dec_integer _); reflexivity.
Qed.

Lemma unparsable_insert_assembles_no_row (env : Env) (fb : Fallback)
    (formData : Form.FormData) (uid : string) :
  parseInt (Form.quantity formData) = None \/
  parseFloat (Form.price formData) = None ->
  assemble env fb (<["user_id"%string := JString uid]>
                     (Form.recordData formData)) = None.
Proof.
  intros H. rewrite assemble_insert_body.
  destruct (fb_id fb); [|reflexivity]. cbn [mbind option_bind].
  destruct (date_in env (Form.trade_date formData)); [|reflexivity].
  cbn [mbind option_bind].
  destruct (dec_text_null (or_null (Form.stock_name formData)));
    [|reflexivity]. cbn [mbind option_bind].
  destruct (dec_type (JString (Form.transaction_type formData)));
    [|reflexivity]. cbn [mbind option_bind].
  destruct H as [H|H]; rewrite H; [reflexivity|].
  destruct (dec_integer _); reflexivity.
Qed.

Lemma mapM_fixes {A} (f : A -> option A) (l k : list A) :
  (forall x y, f x = Some y -> y = x) -> mapM f l = Some k -> k = l.
Proof.
  intros Hf H. apply mapM_Some_1 in H.
  induction H as [|x y l k Hxy _ IH]; [reflexivity|].
  rewrite (Hf _ _ Hxy), IH. reflexivity.
Qed.

(** A form whose quantity or price is not a number is never written: the
    table is as before, for a create and for an update, and a create
    reports the failure. *)
Theorem unparsable_number_is_never_written (env : Env)
    (formData : Form.FormData) (record : option TradingRecord)
    (user : option Auth.User) (table : list TradingRecord) :
  parseInt (Form.quantity formData) = None \/
  parseFloat (Form.price formData) = None ->
  Form.table_after (Form.handleSubmit env formData record user table)
    = table /\
  Form.toast (Form.handleSubmit env formData None user table)
    = Form.SaveFailed false.
Proof.
  intros H. split.
  - unfold Form.handleSubmit, Form.request.
    destruct record as [rec|].
    + unfold Form.perform.
      destruct (update env _ _ table) as [table'|] eqn:U; [|reflexivity].
      simpl. unfold update in U. destruct (online env); [|discriminate].
      refine (mapM_fixes _ _ _ _ U). intros x y.
      destruct (decide _); [|congruence].
      unfold update_row. rewrite unparsable_body_assembles_no_row by exact H.
      discriminate.
    + destruct user as [u|]; [|reflexivity].
      destruct (decide _); [reflexivity|].
      unfold Form.perform, insert. destruct (online env); [|reflexivity].
      rewrite unparsable_insert_assembles_no_row by exact H. reflexivity.
  - unfold Form.handleSubmit, Form.request.
    destruct user as [u|]; [|reflexivity].
    destruct (decide _); [reflexivity|].
    unfold Form.perform, insert. destruct (online env); [|reflexivity].
    rewrite unparsable_insert_assembles_no_row by exact H. reflexivity.
Qed.

(** *** Updates that meet no row, and rows an update does not meet *)

(** An update of a record that is gone, or that the caller does not own,
    writes nothing and still reports success. *)
Theorem update_of_unseen_record_reports_success (env : Env)
    (formData : Form.FormData) (record : TradingRecord)
    (user : option Auth.User) (table : list TradingRecord) :
  online env = true ->
  Forall (fun r => ~ (id r = id record /\ owned env r)) table ->
  Form.handleSubmit env formData (Some record) user table
  = {| Form.table_after := table;
       Form.requests :=
         [Form.Update (Form.recordData formData) (id record)];
       Form.toast := Form.Saved true;
       Form.onSuccess := true |}.
Proof.
  intros Hon Hall. unfold Form.handleSubmit, Form.request, Form.perform.
  assert (U : update env (Form.recordData formData) (id record) table
              = Some table).
  { unfold update. rewrite Hon. apply mapM_Some_2.
    apply Forall_Forall2_diag. eapply Forall_impl; [exact Hall|].
    intros r Hr. simpl. rewrite decide_False by exact Hr. reflexivity. }
  rewrite U. reflexivity.
Qed.

(** Whatever the form holds, an update leaves every record with another id
    as it is. *)
Theorem update_leaves_other_records (env : Env) (formData : Form.FormData)
    (record : TradingRecord) (user : option Auth.User)
    (table : list TradingRecord) (i : nat) (x : TradingRecord) :
  table !! i = Some x -> id x <> id record ->
  Form.table_after (Form.handleSubmit env formData (Some record) user table)
    !! i = Some x.
Proof.
  intros Hx Hne. unfold Form.handleSubmit, Form.request, Form.perform.
  destruct (update env _ _ table) as [table'|] eqn:U; simpl; [|exact Hx].
  unfold update in U. destruct (online env); [|discriminate].
  apply mapM_Some_1 in U.
  destruct (Forall2_lookup_l _ _ _ _ _ U Hx) as (y & Hy & Hf).
  rewrite decide_False in Hf by (intros [E _]; exact (Hne E)).
  congruence.
Qed.

(** An update that succeeds stamps the record the caller owns with the time
    of the update and gives it the symbol of the form in upper case, which
    holds no letter [a]-[z], and the date the store reads from the form's
    date. *)
Theorem successful_update_stamps_record (env : Env)
    (formData : Form.FormData) (record : TradingRecord)
    (user : option Auth.User) (table : list TradingRecord) (i : nat)
    (r : TradingRecord) :
  Form.toast (Form.handleSubmit env formData (Some record) user table)
    = Form.Saved true ->
  table !! i = Some r -> id r = id record -> owned env r ->
  exists r',
    Form.table_after
      (Form.handleSubmit env formData (Some record) user table) !! i
      = Some r' /\
    updated_at r' = now env /\
    stock_symbol r' = toUpperCase (Form.stock_symbol formData) /\
    no_lower_case (stock_symbol r') /\
    date_in env (Form.trade_date formData) = Some (trade_date r') /\
    identity_columns r' = identity_columns r.
Proof.
  unfold Form.handleSubmit, Form.request, Form.perform.
  destruct (update env _ _ table) as [table'|] eqn:U; simpl; [|discriminate].
  intros _ Hr Hid Ho. unfold update in U.
  destruct (online env); [|discriminate]. apply mapM_Some_1 in U.
  destruct (Forall2_lookup_l _ _ _ _ _ U Hr) as (r' & Hr' & Hf).
  rewrite decide_True in Hf by (split; assumption).
  exists r'. split; [exact Hr'|].
  assert (I : identity_columns r' = identity_columns r)
    by (eapply update_row_identity; [..|exact Hf]; reflexivity).
  unfold update_row in Hf.
  destruct (assemble env (old_values r) _) as [new|] eqn:A; simpl in Hf;
    [|discriminate].
  destruct (decide _); [|discriminate]. injection Hf as <-.
  rewrite assemble_recordData in A. split_columns A. injection A as <-.
  simpl. split; [reflexivity|]. split; [reflexivity|].
  split; [apply asciiUpper_no_lower_case|]. split; [reflexivity | exact I].
Qed.

(** *** Opening a record and saving it *)

(** Opening a record in the form and saving it without an edit changes its
    time of update and nothing else, for a record whose fees are present,
    whose symbol is in upper case, whose name and notes are not empty
    strings and whose values read back from their texts: the row is as it
    was or as it was with [updated_at] stamped, and stamped it is when the
    save succeeds on a record the caller owns. *)
Theorem saving_unedited_record_changes_updated_at_only (env : Env)
    (r : TradingRecord) (user : option Auth.User)
    (table : list TradingRecord) (i : nat) :
  table !! i = Some r ->
  is_Some (commission r) -> is_Some (tax r) ->
  toUpperCase (stock_symbol r) = stock_symbol r ->
  stock_name r <> Some ""%string -> notes r <> Some ""%string ->
  Form.reads_back env r ->
  (forall p, parseFloat (toString (price r)) = Some p -> p = price r) ->
  let out := Form.handleSubmit env (Form.loadRecord r) (Some r) user table in
  exists r',
    Form.table_after out !! i = Some r' /\
    (r' = r \/ r' = update_updated_at_column env r) /\
    (Form.toast out = Form.Saved true -> owned env r ->
     r' = update_updated_at_column env r).
Proof.
  intros Hi Hc Ht Hs Hn Hnotes Hrb Hp. cbv zeta.
  unfold Form.handleSubmit, Form.request, Form.perform.
  destruct (update env _ (id r) table) as [table'|] eqn:U; simpl.
  - unfold update in U. destruct (online env); [|discriminate].
    apply mapM_Some_1 in U.
    destruct (Forall2_lookup_l _ _ _ _ _ U Hi) as (r' & Hr' & Hf).
    exists r'. split; [exact Hr'|].
    destruct (decide (id r = id r /\ owned env r)) as [_|N].
    + change (Form.loadRecord r)
        with (Form.handleInputChange "price" (toString (price r))
                (Form.loadRecord r)) in Hf.
      destruct (price_edit_row env r r' _ Hs Hn Hnotes Hc Ht Hrb Hf)
        as (Ho & Hprice & Hu).
      apply Hp in Hprice.
      assert (E : r' = update_updated_at_column env r).
      { destruct r, r'. unfold Form.others_unchanged in Ho. simpl in *.
        destruct Ho as (-> & -> & -> & -> & -> & -> & -> & -> & -> & -> & ->).
        subst. reflexivity. }
      split; [right; exact E | intros _ _; exact E].
    + injection Hf as <-. split; [left; reflexivity|].
      intros _ Ho. exfalso. apply N. split; [reflexivity | exact Ho].
  - exists r. split; [exact Hi|]. split; [left; reflexivity | discriminate].
Qed.

(** *** The shape of the rows the form writes *)

Lemma written_columns_normalised (s : string) (n no : option string)
    (name notes : string) (cx tx : Q) :
  dec_text_null (or_null name) = Some n ->
  dec_text_null (or_null notes) = Some no ->
  asciiUpper (toUpperCase s) = toUpperCase s /\
  n <> Some ""%string /\ no <> Some ""%string /\
  is_Some (Some cx) /\ is_Some (Some tx).
Proof.
  unfold or_null. intros Hn Hno.
  split; [apply asciiUpper_idempotent|].
  destruct (decide (name = ""%string)), (decide (notes = ""%string));
    simpl in *; injection Hn as <-; injection Hno as <-;
    repeat split; try congruence; eexists; reflexivity.
Qed.

(** The form keeps the table in its shape: when the fee fields are empty or
    hold numbers, a submit, be it a create or an update, a success or a
    failure, leaves every row normalised if every row was. *)
Theorem form_keeps_table_normalised (env : Env) (formData : Form.FormData)
    (record : option TradingRecord) (user : option Auth.User)
    (table : list TradingRecord) :
  is_Some (Form.fee_value (Form.commission formData)) ->
  is_Some (Form.fee_value (Form.tax formData)) ->
  Forall Form.normalised table ->
  Forall Form.normalised
    (Form.table_after (Form.handleSubmit env formData record user table)).
Proof.
  intros [cx Hc] [tx Ht] Hall. unfold Form.handleSubmit, Form.request.
  destruct record as [rec|].
  - unfold Form.perform.
    destruct (update env _ _ table) as [table'|] eqn:U; simpl; [|exact Hall].
    unfold update in U. destruct (online env); [|discriminate].
    apply mapM_Some_1 in U.
    induction U as [|x y l k Hxy _ IH]; [constructor|].
    apply Forall_cons in Hall as [Hx Hl]. constructor; [|exact (IH Hl)].
    destruct (decide _); [|congruence].
    unfold update_row in Hxy.
    destruct (assemble env (old_values x) _) as [new|] eqn:A; simpl in Hxy;
      [|discriminate].
    destruct (decide _); [|discriminate]. injection Hxy as <-.
    rewrite assemble_recordData, Hc, Ht in A. split_columns A.
    injection A as <-. unfold Form.normalised. simpl.
    eapply written_columns_normalised; eassumption.
  - destruct user as [u|]; [|exact Hall].
    destruct (decide _); [exact Hall|].
    unfold Form.perform, insert. destruct (online env); [|exact Hall].
    destruct (assemble env (defaults env) _) as [row|] eqn:A; simpl;
      [|exact Hall].
    destruct (decide (owned env row)); [|exact Hall].
    destruct (decide _); [exact Hall|]. simpl.
    apply Forall_app. split; [exact Hall|]. constructor; [|constructor].
    rewrite assemble_insert_body, Hc, Ht in A. split_columns A.
    injection A as <-. unfold Form.normalised. simpl.
    eapply written_columns_normalised; eassumption.
Qed.

End FormMoreFacts.

(** ** More on the role hook *)

Section RoleHookMoreFacts.
Import RoleHook.
Local Open Scope nat_scope.

(** One step keeps: a run is mounted exactly when it is the latest. *)
Lemma step_keeps_latest_mounted (h : Hook) (e : Event) :
  (forall i r, runs h !! i = Some r ->
     mounted r = bool_decide (S i = length (runs h))) ->
  forall i r, runs (step h e) !! i = Some r ->
    mounted r = bool_decide (S i = length (runs (step h e))).
Proof.
  intros Inv i r. destruct e as [u|k s].
  - assert (runs (step h (UserChanged u))
            = cleanup (runs h)
              ++ [{| run_user := u; mounted := true;
                     pending := match u with Some _ => true | None => false end
                  |}]) as ->
      by (destruct u; reflexivity).
    rewrite length_app, cleanup_length. simpl.
    destruct (decide (i < length (runs h))) as [Hi|Hi].
    + rewrite lookup_app_l by (rewrite cleanup_length; exact Hi).
      rewrite bool_decide_eq_false_2 by lia. unfold cleanup.
      destruct (decide (pred (length (runs h)) = i)) as [<-|Hne].
      * rewrite list_lookup_alter_eq.
        destruct (runs h !! pred (length (runs h))); simpl;
          [intros [= <-]; reflexivity | discriminate].
      * rewrite list_lookup_alter_ne by exact Hne. intros Hr.
        rewrite (Inv _ _ Hr). apply bool_decide_eq_false_2. lia.
    + rewrite lookup_app_r by (rewrite cleanup_length; lia).
      rewrite cleanup_length.
      destruct (i - length (runs h))%nat as [|n] eqn:E; simpl;
        [|destruct n; discriminate].
      intros [= <-]. simpl. symmetry. apply bool_decide_eq_true_2. lia.
  - simpl. destruct (runs h !! k) as [rk|] eqn:Hk; [|apply Inv].
    destruct (pending rk); [|apply Inv]. simpl. rewrite length_insert.
    destruct (decide (k = i)) as [<-|Hne].
    + rewrite list_lookup_insert_eq by (eapply lookup_lt_Some; exact Hk).
      intros [= <-]. simpl. apply Inv. exact Hk.
    + rewrite list_lookup_insert_ne by exact Hne. apply Inv.
Qed.

Lemma fold_keeps_latest_mounted (events : list Event) (h : Hook) :
  (forall i r, runs h !! i = Some r ->
     mounted r = bool_decide (S i = length (runs h))) ->
  forall i r, runs (fold_left step events h) !! i = Some r ->
    mounted r = bool_decide (S i = length (runs (fold_left step events h))).
Proof.
  revert h. induction events as [|e events IH]; intros h Inv; [exact Inv|].
  simpl. apply IH. apply step_keeps_latest_mounted. exact Inv.
Qed.

(** Whatever happens to the hook, the flag [mounted] of a run is set exactly
    while the run is the latest one: every change of the user clears the
    flag of the run before. *)
Theorem only_latest_run_is_mounted (events : list Event) (i : nat) (r : Run) :
  runs (run events) !! i = Some r ->
  mounted r = bool_decide (S i = length (runs (run events))).
Proof.
  unfold run. apply fold_keeps_latest_mounted. intros j x H. inversion H.
Qed.

(** The guard of [setLoading] works: the answer to the query of a run that
    is no longer the latest never touches [loading]. *)
Theorem superseded_query_leaves_loading (events : list Event) (k : nat)
    (s : Settled) :
  S k < length (runs (run events)) ->
  loading (step (run events) (QuerySettled k s)) = loading (run events).
Proof.
  intros Hk.
  destruct (lookup_lt_is_Some_2 (runs (run events)) k) as [r Hr]; [lia|].
  eapply stale_query_keeps_loading; [exact Hr|].
  unfold run in *.
  rewrite (fold_keeps_latest_mounted events initial) with (i := k)
    by (first [exact Hr | intros j x H; inversion H]).
  apply bool_decide_eq_false_2. lia.
Qed.

(** The query of the latest run stays in flight while other queries settle. *)
Lemma other_answers_keep_query (n : nat) (new : Run)
    (earlier : list (nat * Settled)) (h : Hook) :
  Forall (fun e => e.1 <> n) earlier ->
  runs h !! n = Some new -> length (runs h) = S n ->
  let h' := fold_left step ((fun e => QuerySettled e.1 e.2) <$> earlier) h in
  runs h' !! n = Some new /\ length (runs h') = S n.
Proof.
  cbv zeta. revert h. induction earlier as [|[k s] l IH]; intros h Hall Hn Hl;
    [split; assumption|].
  apply Forall_cons in Hall as [Hk Hall]. simpl in Hk.
  rewrite fmap_cons. simpl fold_left. apply IH; [exact Hall| |].
  - simpl. destruct (runs h !! k) as [rk|]; [|exact Hn].
    destruct (pending rk); [|exact Hn]. simpl.
    rewrite list_lookup_insert_ne by exact Hk. exact Hn.
  - simpl. destruct (runs h !! k) as [rk|]; [|exact Hl].
    destruct (pending rk); [|exact Hl]. simpl.
    rewrite length_insert. exact Hl.
Qed.

(** When the answer for the latest user is the last one to arrive, the hook
    ends in that user's actual role with [loading] cleared, whatever older
    queries settled in between. *)
Theorem latest_answer_settling_last_wins (h : Hook) (u : Auth.User)
    (user_roles : gmap string Role) (earlier : list (nat * Settled)) :
  Forall (fun e => e.1 <> length (runs h)) earlier ->
  let h1 := fold_left step ((fun e => QuerySettled e.1 e.2) <$> earlier)
              (step h (UserChanged (Some u))) in
  let h2 := step h1 (QuerySettled (length (runs h)) (answer user_roles u)) in
  role h2 = Some (actual_role user_roles u) /\
  loading h2 = false /\
  current_user h2 = Some u /\
  isAdmin h2 = bool_decide (user_roles !! Auth.id u = Some admin).
Proof.
  intros Hall. cbv zeta.
  destruct (other_answers_keep_query (length (runs h))
              {| run_user := Some u; mounted := true; pending := true |}
              earlier (step h (UserChanged (Some u))) Hall)
    as [Hn Hl].
  { apply query_started. }
  { simpl. rewrite length_app, cleanup_length. simpl. lia. }
  set (h1 := fold_left step _ _) in *.
  assert (R : role (step h1 (QuerySettled (length (runs h))
                               (answer user_roles u)))
              = Some (actual_role user_roles u)).
  { simpl. rewrite Hn. simpl. unfold actual_role.
    destruct (user_roles !! Auth.id u); reflexivity. }
  split; [exact R|]. split; [simpl; rewrite Hn; reflexivity|]. split.
  - unfold current_user. rewrite last_lookup. simpl. rewrite Hn. simpl.
    rewrite length_insert, Hl. simpl.
    rewrite list_lookup_insert_eq by lia. reflexivity.
  - unfold isAdmin. rewrite R. unfold actual_role.
    destruct (user_roles !! Auth.id u) as [[]|]; reflexivity.
Qed.

End RoleHookMoreFacts.

(** ** The admin dashboard *)

Section AdminFacts.
Import RoleHook Admin.
Local Open Scope nat_scope.

Lemma admin_count_le (l : list User) : admin_count l <= length l.
Proof. unfold admin_count. apply length_filter. Qed.

Lemma with_role_length (userId : string) (newRole : Role) (l : list User) :
  length (with_role userId newRole l) = length l.
Proof. unfold with_role. apply length_fmap. Qed.

(** The four figures keep agreeing with the list of users: a load whose
    count query is answered and a change of role, whether they succeed or
    fail, leave [totalUsers] the length of the list, [adminUsers] the number
    of admins in it and [activeUsers] equal to [totalUsers]; so the admins
    are never more than the users.  The change of role maps the list its
    handler captured, which may be an older one; it is enough that this list
    is as long as the list of the state. *)
Theorem admin_figures_stay_consistent (s : State) (captured : list User)
    (usersData : Response (list ProfileRow)) (count : option nat)
    (countError : bool) (upsert : Response unit) (userId : string)
    (newRole : Role) :
  consistent s ->
  length captured = length (users s) ->
  consistent (fetchSystemData usersData (Fulfilled count countError) s) /\
  consistent (updateUserRole upsert userId newRole captured s) /\
  adminUsers (stats s) <= totalUsers (stats s).
Proof.
  intros (Ht & Ha & Hact) Hlen. split; [|split].
  - unfold fetchSystemData.
    destruct usersData as [data [|]|]; repeat split; assumption.
  - unfold updateUserRole.
    destruct upsert as [d [|]|]; simpl; try (repeat split; assumption).
    split; [|split]; simpl.
    + rewrite with_role_length, Hlen. exact Ht.
    + reflexivity.
    + exact Hact.
  - rewrite Ha, Ht. apply admin_count_le.
Qed.

Lemma with_role_absent (userId : string) (newRole : Role) (l : list User) :
  userId ∉ id <$> l -> with_role userId newRole l = l.
Proof.
  induction l as [|x l IH]; intros H; [reflexivity|].
  unfold with_role in *. rewrite fmap_cons in *.
  apply not_elem_of_cons in H as [Hx Hl].
  rewrite decide_False by congruence. rewrite IH by exact Hl. reflexivity.
Qed.

Lemma admin_count_cons (x : User) (l : list User) :
  admin_count (x :: l)
  = ((if decide (role x = admin) then 1 else 0) + admin_count l)%nat.
Proof.
  unfold admin_count. rewrite filter_cons.
  destruct (decide (role x = admin)); reflexivity.
Qed.

Lemma admin_count_with_role (u : User) (newRole : Role) (l : list User) :
  NoDup (id <$> l) -> u ∈ l ->
  (admin_count (with_role (id u) newRole l)
   + (if decide (role u = admin) then 1 else 0)
   = admin_count l + (if decide (newRole = admin) then 1 else 0))%nat.
Proof.
  induction l as [|x l IH]; intros Hnd Hu; [inversion Hu|].
  rewrite fmap_cons in Hnd. apply NoDup_cons in Hnd as [Hx Hnd].
  apply elem_of_cons in Hu as [->|Hu].
  - unfold with_role. rewrite fmap_cons, decide_True by reflexivity.
    fold (with_role (id x) newRole l). rewrite with_role_absent by exact Hx.
    rewrite !admin_count_cons. simpl. lia.
  - assert (id x <> id u).
    { intros E. apply Hx. rewrite E. apply list_elem_of_fmap_2. exact Hu. }
    unfold with_role. rewrite fmap_cons, decide_False by assumption.
    fold (with_role (id u) newRole l).
    rewrite !admin_count_cons. specialize (IH Hnd Hu). lia.
Qed.

(** A change of role that succeeds moves the number of admins by exactly
    one when the role really changes: up for a user made admin, down for an
    admin made user, given that the figure agreed with the list the handler
    captured at its rendering and that the users of this list have distinct
    ids.  Of a handler whose list is older than the figure nothing is
    said. *)
Theorem role_change_moves_admin_count_by_one (s : State)
    (captured : list User) (u : User) (d : option unit) :
  NoDup (id <$> captured) -> u ∈ captured ->
  adminUsers (stats s) = admin_count captured ->
  (role u = user ->
   adminUsers
     (stats (updateUserRole (Fulfilled d false) (id u) admin captured s))
   = S (adminUsers (stats s))) /\
  (role u = admin ->
   S (adminUsers
        (stats (updateUserRole (Fulfilled d false) (id u) user captured s)))
   = adminUsers (stats s)) /\
  (forall newRole, newRole = role u ->
   adminUsers
     (stats (updateUserRole (Fulfilled d false) (id u) newRole captured s))
   = adminUsers (stats s)).
Proof.
  intros Hnd Hu Ha. simpl. rewrite Ha.
  split; [|split].
  - intros E. pose proof (admin_count_with_role u admin _ Hnd Hu) as H.
    rewrite E in H. simpl in H. lia.
  - intros E. pose proof (admin_count_with_role u user _ Hnd Hu) as H.
    rewrite E in H. simpl in H. lia.
  - intros newRole ->. pose proof (admin_count_with_role u (role u) _ Hnd Hu).
    lia.
Qed.

End AdminFacts.

(** ** The properties above on the example data *)

Section MoreExamples.
Import Schema Store Examples.

Lemma created_row_hidden_from_others_witness :
  Form.toast (Form.handleSubmit (JS := IntegerRuntime.runtime)
                session new_purchase None (Some alice) [ten_at_100])
    = Form.Saved false /\
  auth_uid bob_session <> Some (Auth.id alice) /\
  exists row,
    Form.table_after (Form.handleSubmit (JS := IntegerRuntime.runtime)
                        session new_purchase None (Some alice) [ten_at_100])
      = [ten_at_100] ++ [row] /\
    (row ∉ Journal.records Journal.initial ->
     row ∉ Journal.records
             (Journal.fetchRecords bob_session ([ten_at_100] ++ [row])
                Journal.initial)).
Proof.
  split; [reflexivity|]. split; [discriminate|].
  apply (created_row_hidden_from_others (JS := IntegerRuntime.runtime)
           session bob_session new_purchase alice [ten_at_100]
           Journal.initial); [reflexivity | discriminate].
Defined.

Lemma one_purchase_in_sync :
  Journal.in_sync session [ten_at_100]
    (Journal.records one_purchase_listed).
Proof.
  split; [reflexivity|]. repeat constructor.
Defined.

Lemma delete_keeps_list_in_sync_witness :
  let res := Journal.handleDeleteRecord session "r1" [ten_at_100]
               (Journal.records one_purchase_listed) one_purchase_listed in
  res.1 = [] /\ Journal.records res.2 = [] /\
  Journal.in_sync session res.1 (Journal.records res.2) /\
  filter (fun r => ~ owned session r) res.1
    = filter (fun r => ~ owned session r) [ten_at_100] /\
  (online session = true ->
   Forall (fun r => id r <> "r1"%string) (Journal.records res.2)).
Proof.
  split; [reflexivity|]. split; [reflexivity|].
  exact (delete_keeps_list_in_sync session "r1" [ten_at_100]
           (Journal.records one_purchase_listed) one_purchase_listed
           one_purchase_in_sync one_purchase_in_sync).
Defined.

Lemma create_then_delete_restores_table_witness :
  Form.toast (Form.handleSubmit (JS := IntegerRuntime.runtime)
                session new_purchase None (Some alice) [ten_at_100])
    = Form.Saved false /\
  exists row,
    Form.table_after (Form.handleSubmit (JS := IntegerRuntime.runtime)
                        session new_purchase None (Some alice) [ten_at_100])
      = [ten_at_100] ++ [row] /\
    (Journal.handleDeleteRecord session (id row) ([ten_at_100] ++ [row])
       (Journal.records one_purchase_listed) one_purchase_listed).1
    = [ten_at_100].
Proof.
  split; [reflexivity|].
  apply (create_then_delete_restores_table (JS := IntegerRuntime.runtime)
           session new_purchase (Some alice) [ten_at_100]
           (Journal.records one_purchase_listed) one_purchase_listed).
  reflexivity.
Defined.

Lemma unparsable_number_is_never_written_witness :
  (parseInt (JSRuntime := IntegerRuntime.runtime)
     (Form.quantity bad_quantity) = None \/
   parseFloat (JSRuntime := IntegerRuntime.runtime)
     (Form.price bad_quantity) = None) /\
  Form.table_after (Form.handleSubmit (JS := IntegerRuntime.runtime)
                      session bad_quantity (Some ten_at_100) (Some alice)
                      [ten_at_100])
    = [ten_at_100] /\
  Form.toast (Form.handleSubmit (JS := IntegerRuntime.runtime)
                session bad_quantity None (Some alice) [ten_at_100])
    = Form.SaveFailed false.
Proof.
  assert (H : parseInt (JSRuntime := IntegerRuntime.runtime)
                (Form.quantity bad_quantity) = None \/
              parseFloat (JSRuntime := IntegerRuntime.runtime)
                (Form.price bad_quantity) = None)
    by (left; reflexivity).
  split; [exact H|].
  exact (unparsable_number_is_never_written (JS := IntegerRuntime.runtime)
           session bad_quantity (Some ten_at_100) (Some alice) [ten_at_100]
           H).
Defined.

Lemma not_seen_by_bob :
  Forall (fun r => ~ (id r = id ten_at_100 /\ owned bob_session r))
    [ten_at_100].
Proof.
  constructor; [|constructor]. intros [_ H]. discriminate H.
Defined.

Lemma update_of_unseen_record_reports_success_witness :
  Form.handleSubmit (JS := IntegerRuntime.runtime) bob_session new_purchase
    (Some ten_at_100) (Some bob) [ten_at_100]
  = {| Form.table_after := [ten_at_100];
       Form.requests :=
         [Form.Update
            (Form.recordData (JS := IntegerRuntime.runtime) new_purchase)
            (id ten_at_100)];
       Form.toast := Form.Saved true;
       Form.onSuccess := true |}.
Proof.
  exact (update_of_unseen_record_reports_success
           (JS := IntegerRuntime.runtime) bob_session new_purchase
           ten_at_100 (Some bob) [ten_at_100] eq_refl not_seen_by_bob).
Defined.

Lemma other_id : id ten_sold_at_120 <> id ten_at_100.
Proof. discriminate. Defined.

Lemma update_leaves_other_records_witness :
  Form.table_after
    (Form.handleSubmit (JS := IntegerRuntime.runtime) session new_purchase
       (Some ten_at_100) (Some alice) [ten_at_100; ten_sold_at_120])
    !! 1%nat = Some ten_sold_at_120.
Proof.
  exact (update_leaves_other_records (JS := IntegerRuntime.runtime) session
           new_purchase ten_at_100 (Some alice)
           [ten_at_100; ten_sold_at_120] 1 ten_sold_at_120 eq_refl other_id).
Defined.

Lemma successful_update_stamps_record_witness :
  exists r',
    Form.table_after
      (Form.handleSubmit (JS := IntegerRuntime.runtime) session new_purchase
         (Some ten_at_100) (Some alice) [ten_at_100; ten_sold_at_120])
      !! 0%nat = Some r' /\
    updated_at r' = now session /\
    stock_symbol r' = "TSM"%string /\
    no_lower_case (stock_symbol r') /\
    date_in session (Form.trade_date new_purchase) = Some (trade_date r') /\
    identity_columns r' = identity_columns ten_at_100.
Proof.
  exact (successful_update_stamps_record (JS := IntegerRuntime.runtime)
           session new_purchase ten_at_100 (Some alice)
           [ten_at_100; ten_sold_at_120] 0 ten_at_100 eq_refl eq_refl eq_refl
           eq_refl).
Defined.

Lemma saving_unedited_record_changes_updated_at_only_witness :
  let out :=
    Form.handleSubmit (JS := IntegerRuntime.runtime) session
      (Form.loadRecord (JS := IntegerRuntime.runtime) ten_at_100)
      (Some ten_at_100) (Some alice) [ten_at_100] in
  Form.toast out = Form.Saved true /\
  owned session ten_at_100 /\
  Form.table_after out !! 0%nat
    = Some (update_updated_at_column session ten_at_100).
Proof.
  cbv zeta. split; [reflexivity|]. split; [reflexivity|].
  destruct (saving_unedited_record_changes_updated_at_only
              (JS := IntegerRuntime.runtime) session ten_at_100 (Some alice)
              [ten_at_100] 0 eq_refl
              (ex_intro _ _ eq_refl) (ex_intro _ _ eq_refl) eq_refl
              ltac:(discriminate) ltac:(discriminate)
              ten_at_100_reads_back
              ltac:(intros p H; vm_compute in H; injection H as <-;
                    reflexivity))
    as (r' & Hr & _ & Hs).
  rewrite Hr. f_equal. exact (Hs eq_refl eq_refl).
Defined.

Lemma form_keeps_table_normalised_witness :
  Forall Form.normalised [ten_at_100] /\
  Forall Form.normalised
    (Form.table_after
       (Form.handleSubmit (JS := IntegerRuntime.runtime) session
          new_purchase None (Some alice) [ten_at_100])).
Proof.
  assert (H : Forall Form.normalised [ten_at_100])
    by (constructor; [exact ten_at_100_normalised | constructor]).
  split; [exact H|].
  apply (form_keeps_table_normalised (JS := IntegerRuntime.runtime) session
           new_purchase None (Some alice) [ten_at_100]);
    [eexists; reflexivity | eexists; reflexivity | exact H].
Defined.

Lemma only_latest_run_is_mounted_witness :
  RoleHook.mounted
    {| RoleHook.run_user := Some alice; RoleHook.mounted := false;
       RoleHook.pending := false |}
  = bool_decide (1 = length (RoleHook.runs (RoleHook.run switch_direct)))%nat.
Proof.
  exact (only_latest_run_is_mounted switch_direct 0 _ eq_refl).
Defined.

Lemma superseded_query_leaves_loading_witness :
  let events :=
    [RoleHook.UserChanged (Some alice); RoleHook.UserChanged (Some bob)] in
  let late := RoleHook.QuerySettled 0 (RoleHook.answer user_roles alice) in
  RoleHook.pending <$> RoleHook.runs (RoleHook.run events) = [true; true] /\
  RoleHook.loading (RoleHook.run events) = true /\
  RoleHook.role (RoleHook.run events) = None /\
  RoleHook.role (RoleHook.step (RoleHook.run events) late)
    = Some RoleHook.admin /\
  RoleHook.loading (RoleHook.step (RoleHook.run events) late) = true.
Proof.
  cbv zeta. split; [reflexivity|]. split; [reflexivity|].
  split; [reflexivity|]. split; [reflexivity|].
  rewrite (superseded_query_leaves_loading
             [RoleHook.UserChanged (Some alice);
              RoleHook.UserChanged (Some bob)] 0
             (RoleHook.answer user_roles alice));
    [reflexivity | vm_compute; constructor].
Defined.

Lemma latest_answer_settling_last_wins_witness :
  let h := RoleHook.run [RoleHook.UserChanged (Some alice)] in
  let h1 :=
    fold_left RoleHook.step
      ((fun e => RoleHook.QuerySettled e.1 e.2)
         <$> [(0%nat, RoleHook.answer user_roles alice)])
      (RoleHook.step h (RoleHook.UserChanged (Some bob))) in
  let h2 :=
    RoleHook.step h1
      (RoleHook.QuerySettled (length (RoleHook.runs h))
         (RoleHook.answer user_roles bob)) in
  RoleHook.role h2 = Some (RoleHook.actual_role user_roles bob) /\
  RoleHook.loading h2 = false /\
  RoleHook.current_user h2 = Some bob /\
  RoleHook.isAdmin h2
    = bool_decide (user_roles !! Auth.id bob = Some RoleHook.admin).
Proof.
  apply (latest_answer_settling_last_wins
           (RoleHook.run [RoleHook.UserChanged (Some alice)]) bob user_roles
           [(0%nat, RoleHook.answer user_roles alice)]).
  constructor; [discriminate | constructor].
Defined.

Lemma two_users_consistent : Admin.consistent two_users.
Proof. repeat split. Defined.

Lemma admin_figures_stay_consistent_witness :
  let changed :=
    Admin.updateUserRole (Admin.Fulfilled None false) "B" RoleHook.admin
      (Admin.users two_users) two_users in
  Admin.role <$> Admin.users two_users = [RoleHook.admin; RoleHook.user] /\
  Admin.role <$> Admin.users changed = [RoleHook.admin; RoleHook.admin] /\
  Admin.adminUsers (Admin.stats changed) = 2%nat /\
  Admin.consistent
    (Admin.fetchSystemData (Admin.Fulfilled None false)
       (Admin.Fulfilled None true) two_users) /\
  Admin.consistent changed /\
  (Admin.adminUsers (Admin.stats two_users)
   <= Admin.totalUsers (Admin.stats two_users))%nat.
Proof.
  cbv zeta. split; [reflexivity|]. split; [reflexivity|].
  split; [reflexivity|].
  exact (admin_figures_stay_consistent two_users (Admin.users two_users)
           (Admin.Fulfilled None false) None true
           (Admin.Fulfilled None false) "B" RoleHook.admin
           two_users_consistent eq_refl).
Defined.

Lemma role_change_moves_admin_count_by_one_witness :
  Admin.adminUsers (Admin.stats two_users) = 1%nat /\
  Admin.adminUsers
    (Admin.stats
       (Admin.updateUserRole (Admin.Fulfilled None false)
          (Admin.id listed_bob) RoleHook.admin (Admin.users two_users)
          two_users))
  = 2%nat.
Proof.
  split; [reflexivity|].
  destruct (role_change_moves_admin_count_by_one two_users
              (Admin.users two_users) listed_bob None) as (Hup & _).
  - vm_compute. repeat constructor; intros H;
      repeat (apply elem_of_cons in H as [H|H]; [discriminate H|]);
      inversion H.
  - vm_compute. apply list_elem_of_further, list_elem_of_here.
  - reflexivity.
  - exact (Hup eq_refl).
Defined.

(** Two deletes started from one rendering: the handler of the second still
    holds the list of that rendering, so the record the first took away is
    listed again, over a table that holds nothing. *)
Remark second_delete_of_one_rendering_relists_record :
  let table := [ten_at_100; ten_sold_at_120] in
  let listed := Journal.fetchRecords session table Journal.initial in
  let captured := Journal.records listed in
  let first := Journal.handleDeleteRecord session "r1" table captured listed in
  let second :=
    Journal.handleDeleteRecord session "r4" first.1 captured first.2 in
  second.1 = [] /\ Journal.records second.2 = [ten_at_100].
Proof. vm_compute. split; reflexivity. Qed.

(** Two changes of role started from one rendering: the second maps the list
    of that rendering, so Bob's new role is lost from the list and from the
    figure. *)
Remark second_role_change_of_one_rendering_drops_first :
  let captured := Admin.users two_users in
  let first :=
    Admin.updateUserRole (Admin.Fulfilled None false) "B" RoleHook.admin
      captured two_users in
  let second :=
    Admin.updateUserRole (Admin.Fulfilled None false) "A" RoleHook.user
      captured first in
  Admin.role <$> Admin.users first = [RoleHook.admin; RoleHook.admin] /\
  Admin.role <$> Admin.users second = [RoleHook.user; RoleHook.user] /\
  Admin.adminUsers (Admin.stats second) = 0%nat.
Proof. vm_compute. repeat split. Qed.

End MoreExamples.
